(** * pdf-minimum-edit: the edit session of [app.py]

    A shallow embedding of the Flask handlers of [app.py] (upload, edit,
    rotate, delete, move) over an explicit model of the upload directory,
    together with the properties of the edit session: the page ledger kept
    in the JSON metadata, the lockstep of ledger and document, the no-op
    policy for violated preconditions, the way each operation persists
    its result, and what failing writes and missing files lead to.

    The directory is a finite map from paths to files; a handler is a
    function from the directory to a result (a response or the exception
    that leaves it) and the directory it leaves.  PyMuPDF and the Python
    built-ins are modelled as far as the handlers use them. *)

From Stdlib Require Import ZArith List Lia Ascii String.
From stdpp Require Import base numbers option list strings gmap pretty.

Open Scope Z_scope.

(** ** Exceptions and results *)

(** The Python exceptions the handlers can meet. *)
Inductive exn :=
| FileNotFoundError
| FileDataError
| IndexError
| ValueError
| JSONDecodeError
| OSError.

Inductive result (A : Type) :=
| Ok (a : A)
| Raise (e : exn).
Arguments Ok {A} a.
Arguments Raise {A} e.

Definition rbind {A B} (r : result A) (k : A -> result B) : result B :=
  match r with
  | Ok a => k a
  | Raise e => Raise e
  end.

(** [[f(x) for x in l]] where [f] may raise: the first exception wins. *)
Fixpoint rmap {A B} (f : A -> result B) (l : list A) : result (list B) :=
  match l with
  | [] => Ok []
  | x :: t => rbind (f x) (fun y => rbind (rmap f t) (fun ys => Ok (y :: ys)))
  end.

(** ** The Python built-ins the handlers use *)

Module Py.

Definition len {A} (l : list A) : Z := Z.of_nat (length l).

(** [list(range(a, b))]. *)
Definition range (a b : Z) : list Z := seqZ a (b - a).

(** A negative index counts from the end. *)
Definition from_end {A} (l : list A) (i : Z) : Z :=
  if i <? 0 then i + len l else i.

(** [l[i]]: [IndexError] out of range. *)
Definition getitem {A} (l : list A) (i : Z) : result A :=
  let j := from_end l i in
  if (0 <=? j) && (j <? len l) then
    match l !! Z.to_nat j with
    | Some x => Ok x
    | None => Raise IndexError
    end
  else Raise IndexError.

(** [l.pop(i)]: the element and the list it leaves; [IndexError] out of
    range. *)
Definition pop {A} (l : list A) (i : Z) : result (A * list A) :=
  let j := from_end l i in
  if (0 <=? j) && (j <? len l) then
    match l !! Z.to_nat j with
    | Some x => Ok (x, take (Z.to_nat j) l ++ drop (S (Z.to_nat j)) l)
    | None => Raise IndexError
    end
  else Raise IndexError.

(** [l.insert(i, x)]: never raises, the index is clamped to [0..len l]. *)
Definition insert {A} (l : list A) (i : Z) (x : A) : list A :=
  let j := if i <? 0 then Z.max 0 (i + len l) else Z.min i (len l) in
  take (Z.to_nat j) l ++ x :: drop (Z.to_nat j) l.

(** [l.insert(t, l.pop(f))], the idiom of [move]: the argument is
    evaluated first, so the insertion is into the list the pop leaves. *)
Definition insert_pop {A} (l : list A) (f t : Z) : result (list A) :=
  rbind (pop l f) (fun xr => Ok (insert (snd xr) t (fst xr))).

(** *** Strings (ASCII; the code points above 127 are left as they are) *)

Definition lower_ascii (c : ascii) : ascii :=
  let n := nat_of_ascii c in
  if Nat.leb 65 n && Nat.leb n 90 then ascii_of_nat (n + 32) else c.

Fixpoint lower (s : string) : string :=
  match s with
  | EmptyString => EmptyString
  | String c t => String (lower_ascii c) (lower t)
  end.

Definition endswith (s suffix : string) : bool :=
  let n := String.length s in
  let m := String.length suffix in
  Nat.leb m n && String.eqb (substring (n - m) m s) suffix.

(** The part of [s] before its last ["."], if [s] has one. *)
Fixpoint before_last_dot (s : string) : option string :=
  match s with
  | EmptyString => None
  | String c t =>
      match before_last_dot t with
      | Some h => Some (String c h)
      | None => if Ascii.eqb c "." then Some EmptyString else None
      end
  end.

(** [s.rsplit(".", 1)[0]]. *)
Definition rsplit_dot_head (s : string) : string :=
  default s (before_last_dot s).

(** *** [int(s)] on a string, base 10

    A string is the UTF-8 encoding of a Python [str].  [int] first turns
    every character above 127 that is white space into a blank and every
    one that is a decimal digit into the ASCII digit of its value, and
    gives up on any other; of the result it strips the ASCII white space
    at both ends (codes 9 to 13 and 32), takes one sign, and reads digits
    that single underscores may separate.  More than 4300 digits are
    refused (the default of [sys.int_max_str_digits]).  The tables of
    digits and of white space are those of Unicode 14.0. *)

Definition between (lo hi c : N) : bool := ((lo <=? c) && (c <=? hi))%N.

(** A continuation byte of UTF-8. *)
Definition continuation (b : N) : bool := between 128 191 b.

(** The code point [cp], read from a sequence whose shortest scalar is
    [lo]: no overlong form, no surrogate, nothing above U+10FFFF. *)
Definition scalar (lo cp : N) : option N :=
  if between lo 1114111 cp && negb (between 55296 57343 cp)
  then Some cp else None.

(** The code points of a UTF-8 byte sequence, if it is one.  (Decoding a
    form replaces bytes that are no UTF-8 by U+FFFD, which [int]
    refuses just the same.) *)
Fixpoint utf8_decode (l : list N) : option (list N) :=
  match l with
  | [] => Some []
  | b0 :: t0 =>
      if (b0 <? 128)%N then cons b0 <$> utf8_decode t0
      else if between 192 223 b0 then
        match t0 with
        | b1 :: t1 =>
            if continuation b1 then
              match scalar 128 ((b0 - 192) * 64 + (b1 - 128))%N with
              | Some cp => cons cp <$> utf8_decode t1
              | None => None
              end
            else None
        | _ => None
        end
      else if between 224 239 b0 then
        match t0 with
        | b1 :: b2 :: t2 =>
            if continuation b1 && continuation b2 then
              match scalar 2048 ((b0 - 224) * 4096 + (b1 - 128) * 64
                                 + (b2 - 128))%N with
              | Some cp => cons cp <$> utf8_decode t2
              | None => None
              end
            else None
        | _ => None
        end
      else if between 240 247 b0 then
        match t0 with
        | b1 :: b2 :: b3 :: t3 =>
            if continuation b1 && continuation b2 && continuation b3 then
              match scalar 65536 ((b0 - 240) * 262144 + (b1 - 128) * 4096
                                  + (b2 - 128) * 64 + (b3 - 128))%N with
              | Some cp => cons cp <$> utf8_decode t3
              | None => None
              end
            else None
        | _ => None
        end
      else None
  end.

(** The code points of the digit zero of every script: each is followed
    by its digits one to nine. *)
Definition decimal_zeros : list N :=
  [
   48; 1632; 1776; 1984; 2406; 2534; 2662; 2790;
   2918; 3046; 3174; 3302; 3430; 3558; 3664; 3792;
   3872; 4160; 4240; 6112; 6160; 6470; 6608; 6784;
   6800; 6992; 7088; 7232; 7248; 42528; 43216; 43264;
   43472; 43504; 43600; 44016; 65296; 66720; 68912; 69734;
   69872; 69942; 70096; 70384; 70736; 70864; 71248; 71360;
   71472; 71904; 72016; 72784; 73040; 73120; 92768; 92864;
   93008; 120782; 120792; 120802; 120812; 120822; 123200; 123632;
   125264; 130032
  ]%N.

(** [unicodedata.decimal(chr(cp))], if [cp] is a decimal digit. *)
Definition decimal_value (cp : N) : option N :=
  (fun zero => cp - zero)%N <$>
    head (filter (fun zero => between zero (zero + 9) cp = true) decimal_zeros).

(** The white space above 127. *)
Definition unicode_space (cp : N) : bool :=
  bool_decide (cp ∈ [133; 160; 5760; 8232; 8233; 8239; 8287; 12288]%N)
  || between 8192 8202 cp.

(** The ASCII character [int] reads for a code point. *)
Definition to_ascii (cp : N) : option N :=
  if (cp <? 128)%N then Some cp
  else if unicode_space cp then Some 32%N
  else (fun d => 48 + d)%N <$> decimal_value cp.

(** The white space [int] strips. *)
Definition is_space (c : N) : bool := between 9 13 c || (c =? 32)%N.

Definition is_digit (c : N) : bool := between 48 57 c.

Definition digit_value (c : N) : Z := Z.of_N c - 48.

Fixpoint lstrip (l : list N) : list N :=
  match l with
  | c :: t => if is_space c then lstrip t else l
  | [] => []
  end.

Definition strip (l : list N) : list N :=
  rev (lstrip (rev (lstrip l))).

(** The value of digits and underscores, and how many digits there were;
    [after_digit] tells whether the last character read was a digit. *)
Fixpoint digits (acc : Z) (count : N) (after_digit : bool) (l : list N)
  : option (Z * N) :=
  match l with
  | [] => if after_digit then Some (acc, count) else None
  | c :: t =>
      if is_digit c then digits (10 * acc + digit_value c) (count + 1)%N true t
      else if (c =? 95)%N && after_digit then digits acc count false t
      else None
  end.

Definition int_max_str_digits : N := 4300.

Definition limited (r : option (Z * N)) : option Z :=
  match r with
  | Some (z, count) => if (count <=? int_max_str_digits)%N then Some z else None
  | None => None
  end.

Definition int_of_str (s : string) : result Z :=
  let parsed :=
    match utf8_decode (N_of_ascii <$> list_ascii_of_string s) with
    | Some cps =>
        match mapM to_ascii cps with
        | Some chars =>
            match strip chars with
            | c :: t =>
                if (c =? 45)%N then Z.opp <$> limited (digits 0 0 false t)
                else if (c =? 43)%N then limited (digits 0 0 false t)
                else limited (digits 0 0 false (c :: t))
            | [] => None
            end
        | None => None
        end
    | None => None
    end in
  match parsed with
  | Some z => Ok z
  | None => Raise ValueError
  end.

End Py.

(** ** PyMuPDF documents *)

Module fitz.

(** A page: its opaque content and the [/Rotate] entry of its dictionary. *)
Record page := Page { content : N; Rotate : Z }.

(** PyMuPDF reports and stores rotations normalised: reduced into
    [0..359], and 0 when that is no multiple of 90. *)
Definition norm_rotation (r : Z) : Z :=
  let r := r mod 360 in
  if r mod 90 =? 0 then r else 0.

(** [page.rotation]. *)
Definition rotation (p : page) : Z := norm_rotation (Rotate p).

(** [page.set_rotation(r)]. *)
Definition set_rotation (p : page) (r : Z) : page :=
  {| content := content p; Rotate := norm_rotation r |}.

(** A document: its page sequence and its encryption envelope, if any. *)
Record document := Document { doc_pages : list page; envelope : option N }.

(** [len(doc)]. *)
Definition page_count (d : document) : Z := Py.len (doc_pages d).

Definition with_pages (d : document) (ps : list page) : document :=
  {| doc_pages := ps; envelope := envelope d |}.

(** PyMuPDF adds the page count to a negative page number until it is
    no longer negative.  (On an empty document that loop has no end; the
    handlers only pass numbers their guard has found in range.) *)
Definition wrap (d : document) (i : Z) : Z :=
  if i <? 0 then i mod page_count d else i.

(** [doc[i]]. *)
Definition load_page (d : document) (i : Z) : result page :=
  Py.getitem (doc_pages d) (wrap d i).

(** [doc.delete_page(i)]. *)
Definition delete_page (d : document) (i : Z) : result document :=
  match Py.pop (doc_pages d) (wrap d i) with
  | Ok (_, ps) => Ok (with_pages d ps)
  | Raise _ => Raise ValueError
  end.

(** [doc.select(order)]: the document keeps the pages [order] lists, in
    that order; a number that is not a page raises. *)
Definition select (d : document) (order : list Z) : result document :=
  match rmap (fun i => if 0 <=? i then Py.getitem (doc_pages d) i
                       else Raise ValueError) order with
  | Ok ps => Ok (with_pages d ps)
  | Raise _ => Raise ValueError
  end.

Inductive encrypt := PDF_ENCRYPT_KEEP | PDF_ENCRYPT_NONE.

(** The keyword arguments of [doc.save] the handlers set. *)
Record save_options := SaveOptions {
  incremental : bool;
  deflate : bool;
  encryption : encrypt
}.

(** What [doc.save] writes for [d]: with [PDF_ENCRYPT_KEEP] the document
    as it is, envelope included; with [PDF_ENCRYPT_NONE], the default of
    [save], the document without encryption. *)
Definition written (opts : save_options) (d : document) : document :=
  match encryption opts with
  | PDF_ENCRYPT_KEEP => d
  | PDF_ENCRYPT_NONE => {| doc_pages := doc_pages d; envelope := None |}
  end.

End fitz.

Import fitz.

(** ** The upload directory and the handler monad *)

(** What a file of the upload directory holds: a PDF PyMuPDF can open, the
    JSON of a metadata record, or bytes that are neither. *)
Record meta := Meta { filename : string; pages : list Z }.

Inductive file :=
| PdfFile (d : document)
| JsonFile (m : meta)
| RawFile.

(** The file operations that change the directory, in the order they are
    issued. *)
Inductive event :=
| EvUpload (path : string)
| EvSave (path : string) (opts : save_options)
| EvReplace (src dst : string)
| EvWriteMeta (path : string).

Record world := World { fs : gmap string file; log : list event }.

(** A handler body: it reads and changes the world and returns or raises.
    What it changed before raising stays changed. *)
Definition M (A : Type) : Type := world -> result A * world.

Definition ret {A} (a : A) : M A := fun w => (Ok a, w).

Definition bind {A B} (m : M A) (k : A -> M B) : M B :=
  fun w =>
    match m w with
    | (Ok a, w') => k a w'
    | (Raise e, w') => (Raise e, w')
    end.

Definition lift {A} (r : result A) : M A := fun w => (r, w).

Declare Scope handler_scope.
Delimit Scope handler_scope with handler.
Notation "x <- m ;; k" := (bind m (fun x => k))
  (at level 100, m at next level, right associativity) : handler_scope.
Notation "m ;; k" := (bind m (fun _ => k))
  (at level 100, right associativity) : handler_scope.

(** The writes that can fail, and for each the way it fails:
    [BeforeWriting pt] asks whether a failure at [pt] comes before the
    file is opened for writing. *)
Inductive io_point :=
| AtUpload
| AtSave
| AtReplace
| AtWriteMeta
| BeforeWriting (pt : io_point).

(** What a request gets back.  An exception that leaves the handler is
    answered by Flask with status 500. *)
Inductive response :=
| Redirect (url : string)
| Plain (body : string) (status : Z)
| Rendered (fid filename : string) (npages : Z) (page_info : list (string * Z))
| InternalServerError (e : exn).

Definition serve (h : M response) (w : world) : response * world :=
  match h w with
  | (Ok r, w') => (r, w')
  | (Raise e, w') => (InternalServerError e, w')
  end.

(** What [download] gets back: an ordinary response, or the file
    [send_file] has opened, offered under [download_name]. *)
Inductive download_response :=
| Answer (r : response)
| SendFile (content : file) (download_name : string).

Definition serve_download (h : M download_response) (w : world)
  : download_response * world :=
  match h w with
  | (Ok r, w') => (r, w')
  | (Raise e, w') => (Answer (InternalServerError e), w')
  end.

(** ** The handlers of [app.py] *)

Module app.

Section Handlers.

(** [io pt] tells whether the writes at [pt] succeed; a write that fails
    raises [OSError].  With [io (BeforeWriting pt)] it fails before the
    file is opened and leaves the directory as it was; without, it breaks
    off after the file was opened for writing and leaves an incomplete
    file there, which is no JSON and nothing PyMuPDF opens. *)
Variable io : io_point -> bool.

Local Open Scope handler_scope.

Definition UPLOAD_DIR : string := "uploads".

Definition os_path_join (a b : string) : string := a +:+ "/" +:+ b.

Definition _pdf_path (fid : string) : string :=
  os_path_join UPLOAD_DIR (fid +:+ ".pdf").

Definition _meta_path (fid : string) : string :=
  os_path_join UPLOAD_DIR (fid +:+ ".json").

Definition url_for_edit (fid : string) : string := "/edit/" +:+ fid.

(** *** File operations *)

Definition os_path_exists (path : string) : M bool :=
  fun w => (Ok (match fs w !! path with Some _ => true | None => false end), w).

(** A write of [f] to [path], as [f.save], [doc.save] and
    [open(path, "w")] with [json.dump] do it. *)
Definition write_file (pt : io_point) (ev : event) (path : string) (f : file)
  : M unit :=
  fun w =>
    if io pt
    then (Ok tt, {| fs := <[path := f]> (fs w); log := log w ++ [ev] |})
    else if io (BeforeWriting pt) then (Raise OSError, w)
    else (Raise OSError, {| fs := <[path := RawFile]> (fs w); log := log w |}).

(** [fitz.open(path)]. *)
Definition fitz_open (path : string) : M document :=
  fun w =>
    match fs w !! path with
    | Some (PdfFile d) => (Ok d, w)
    | Some _ => (Raise FileDataError, w)
    | None => (Raise FileNotFoundError, w)
    end.

(** [doc.save(path, ...)]. *)
Definition doc_save (doc : document) (path : string) (opts : save_options)
  : M unit :=
  write_file AtSave (EvSave path opts) path (PdfFile (written opts doc)).

(** [os.replace(src, dst)]: [dst] takes the content of [src] in one step
    and [src] is gone. *)
Definition os_replace (src dst : string) : M unit :=
  fun w =>
    if io AtReplace then
      match fs w !! src with
      | Some f =>
          (Ok tt, {| fs := <[dst := f]> (delete src (fs w));
                     log := log w ++ [EvReplace src dst] |})
      | None => (Raise FileNotFoundError, w)
      end
    else (Raise OSError, w).

(** [json.load] of the file at [path]. *)
Definition json_load (path : string) : M meta :=
  fun w =>
    match fs w !! path with
    | Some (JsonFile m) => (Ok m, w)
    | Some _ => (Raise JSONDecodeError, w)
    | None => (Raise FileNotFoundError, w)
    end.

(** *** Metadata *)

Definition _load_meta (fid : string) (n : Z) : M meta :=
  let path := _meta_path fid in
  ex <- os_path_exists path;;
  if ex : bool then json_load path
  else ret {| filename := "unknown.pdf"; pages := Py.range 1 (n + 1) |}.

Definition _save_meta (fid : string) (m : meta) : M unit :=
  write_file AtWriteMeta (EvWriteMeta (_meta_path fid)) (_meta_path fid)
    (JsonFile m).

Definition _get_page_info (doc : document) (original_pages : list Z)
  : result (list (string * Z)) :=
  rmap (fun i =>
          rbind (load_page doc i) (fun page =>
          rbind (Py.getitem original_pages i) (fun k =>
          Ok ("p." +:+ pretty k, rotation page))))
       (Py.range 0 (page_count doc)).

(** *** Routes *)

(** The file of a multipart upload: its name and what its bytes are. *)
Record upload_file := UploadFile { up_filename : string; up_content : file }.

(** [fid] is the identifier [uuid.uuid4().hex[:12]] draws. *)
Definition upload (fid : string) (f : option upload_file) : M response :=
  match f with
  | Some f =>
      if negb (String.eqb (up_filename f) "")
         && Py.endswith (Py.lower (up_filename f)) ".pdf" then
        let path := _pdf_path fid in
        write_file AtUpload (EvUpload path) path (up_content f);;
        let original_name := Py.rsplit_dot_head (up_filename f) in
        doc <- fitz_open path;;
        _save_meta fid {| filename := original_name;
                          pages := Py.range 1 (page_count doc + 1) |};;
        ret (Redirect (url_for_edit fid))
      else ret (Plain "PDFファイルを選択してください" 400)
  | None => ret (Plain "PDFファイルを選択してください" 400)
  end.

Definition edit (fid : string) : M response :=
  let path := _pdf_path fid in
  ex <- os_path_exists path;;
  if negb ex then ret (Plain "ファイルが見つかりません" 404)
  else
    doc <- fitz_open path;;
    meta <- _load_meta fid (page_count doc);;
    page_info <- lift (_get_page_info doc (pages meta));;
    let filename := filename meta +:+ ".pdf" in
    ret (Rendered fid filename (Py.len page_info) page_info).

Definition rotate (fid : string) (page_idx : Z) : M response :=
  let path := _pdf_path fid in
  doc <- fitz_open path;;
  (if (0 <=? page_idx) && (page_idx <? page_count doc) then
     page <- lift (load_page doc page_idx);;
     let page := set_rotation page ((rotation page + 90) mod 360) in
     let doc := with_pages doc (<[Z.to_nat page_idx := page]> (doc_pages doc)) in
     doc_save doc path {| incremental := true; deflate := false;
                          encryption := PDF_ENCRYPT_KEEP |}
   else ret tt);;
  ret (Redirect (url_for_edit fid)).

Definition delete (fid : string) (page_idx : Z) : M response :=
  let path := _pdf_path fid in
  doc <- fitz_open path;;
  let n := page_count doc in
  (if (0 <=? page_idx) && (page_idx <? n) && (1 <? n) then
     doc <- lift (delete_page doc page_idx);;
     let tmp := path +:+ ".tmp" in
     doc_save doc tmp {| incremental := false; deflate := true;
                         encryption := PDF_ENCRYPT_NONE |};;
     os_replace tmp path;;
     meta <- _load_meta fid n;;
     popped <- lift (Py.pop (pages meta) page_idx);;
     _save_meta fid {| filename := filename meta; pages := snd popped |}
   else ret tt);;
  ret (Redirect (url_for_edit fid)).

(** [form_to] is the ["to"] field of the posted form, if it has one. *)
Definition move (fid : string) (from_idx : Z) (form_to : option string)
  : M response :=
  let path := _pdf_path fid in
  to_idx <- lift (match form_to with
                  | Some s => Py.int_of_str s
                  | None => Ok from_idx
                  end);;
  doc <- fitz_open path;;
  let n := page_count doc in
  (if (0 <=? from_idx) && (from_idx <? n) && (0 <=? to_idx) && (to_idx <? n)
      && negb (from_idx =? to_idx) then
     order <- lift (Py.insert_pop (Py.range 0 n) from_idx to_idx);;
     doc <- lift (select doc order);;
     let tmp := path +:+ ".tmp" in
     doc_save doc tmp {| incremental := false; deflate := true;
                         encryption := PDF_ENCRYPT_NONE |};;
     os_replace tmp path;;
     meta <- _load_meta fid n;;
     ps <- lift (Py.insert_pop (pages meta) from_idx to_idx);;
     _save_meta fid {| filename := filename meta; pages := ps |}
   else ret tt);;
  ret (Redirect (url_for_edit fid)).

(** *** Download *)

(** [rm path] tells whether [os.remove(path)] succeeds where the file is
    there; a removal that fails raises [OSError] and removes nothing. *)
Variable rm : string -> bool.

(** [os.remove(path)].  The log, which lists the writes, stays as it is. *)
Definition os_remove (path : string) : M unit :=
  fun w =>
    if rm path then
      match fs w !! path with
      | Some _ => (Ok tt, {| fs := base.delete path (fs w); log := log w |})
      | None => (Raise FileNotFoundError, w)
      end
    else (Raise OSError, w).

(** [try: body / except OSError: pass]; [FileNotFoundError] is an
    [OSError]. *)
Definition except_OSError_pass (body : M unit) : M unit :=
  fun w =>
    match body w with
    | (Raise OSError, w') => (Ok tt, w')
    | (Raise FileNotFoundError, w') => (Ok tt, w')
    | other => other
    end.

(** The function [download] registers with [after_this_request]. *)
Definition _cleanup (path meta_path : string) : M unit :=
  except_OSError_pass
    (os_remove path;;
     ex <- os_path_exists meta_path;;
     if ex : bool then os_remove meta_path else ret tt).

(** [send_file(path, as_attachment=True, download_name=...)]: the file is
    opened when the response is made. *)
Definition send_file (path download_name : string) : M download_response :=
  fun w =>
    match fs w !! path with
    | Some f => (Ok (SendFile f download_name), w)
    | None => (Raise FileNotFoundError, w)
    end.

(** The response is made first; the registered cleanup runs once the
    handler has returned it. *)
Definition download (fid : string) : M download_response :=
  let path := _pdf_path fid in
  let meta_path := _meta_path fid in
  ex <- os_path_exists path;;
  if negb ex then ret (Answer (Plain "ファイルが見つかりません" 404))
  else
    meta <- _load_meta fid 0;;
    let download_name := filename meta +:+ "_edited.pdf" in
    response <- send_file path download_name;;
    _cleanup path meta_path;;
    ret response.

End Handlers.

End app.

(** Every write succeeds. *)
Definition io_ok : io_point -> bool := fun _ => true.

(** ** Sessions, operations and the worlds they leave *)

(** The list [l.insert(t, l.pop(f))] leaves for indices in range. *)
Definition lmove {A} (f t : nat) (l : list A) : list A :=
  match l !! f with
  | Some x =>
      let r := take f l ++ drop (S f) l in
      take t r ++ x :: drop t r
  | None => l
  end.

(** Where the element at position [j] after a move from [f] to [t] stood
    before it: the moved element arrives at [t]; the elements between the
    two positions shift by one towards [f]; the others stay. *)
Definition came_from (f t j : nat) : nat :=
  if (j =? t)%nat then f
  else if (f <=? j)%nat && (j <? t)%nat then S j
  else if (t <? j)%nat && (j <=? f)%nat then pred j
  else j.

(** The temporary file of a full rewrite, [path + ".tmp"]. *)
Definition tmp_path (fid : string) : string := app._pdf_path fid +:+ ".tmp".

(** The metadata [_load_meta] yields on a directory. *)
Definition loaded_meta (fid : string) (n : Z) (files : gmap string file)
  : result meta :=
  match files !! app._meta_path fid with
  | Some (JsonFile m) => Ok m
  | Some _ => Raise JSONDecodeError
  | None => Ok {| filename := "unknown.pdf"; pages := Py.range 1 (n + 1) |}
  end.

(** The options [delete] and [move] save with; [encryption] stays at the
    default of [save]. *)
Definition full_rewrite : save_options :=
  {| incremental := false; deflate := true; encryption := PDF_ENCRYPT_NONE |}.

(** The options [rotate] saves with. *)
Definition incremental_save : save_options :=
  {| incremental := true; deflate := false; encryption := PDF_ENCRYPT_KEEP |}.

(** The directory after a full rewrite of the document followed by the
    write of the metadata. *)
Definition rewritten (fid : string) (d : document) (m : meta) (w : world)
  : world :=
  {| fs := <[app._meta_path fid := JsonFile m]>
             (<[app._pdf_path fid := PdfFile (written full_rewrite d)]>
                (delete (tmp_path fid) (fs w)));
     log := log w ++ [EvSave (tmp_path fid) full_rewrite;
                      EvReplace (tmp_path fid) (app._pdf_path fid);
                      EvWriteMeta (app._meta_path fid)] |}.

(** The conditions the three handlers test before they change anything. *)
Definition rotate_guard (d : document) (i : Z) : bool :=
  (0 <=? i) && (i <? page_count d).

Definition delete_guard (d : document) (i : Z) : bool :=
  (0 <=? i) && (i <? page_count d) && (1 <? page_count d).

Definition move_guard (d : document) (f t : Z) : bool :=
  (0 <=? f) && (f <? page_count d) && (0 <=? t) && (t <? page_count d)
  && negb (f =? t).

(** The page [rotate] writes back. *)
Definition rotated (p : page) : page :=
  set_rotation p ((rotation p + 90) mod 360).

(** The file names [upload] accepts. *)
Definition accepted_name (name : string) : bool :=
  negb (String.eqb name "") && Py.endswith (Py.lower name) ".pdf".

(** What loading a session yields, as [edit] does it: the document at the
    session's path and the metadata [_load_meta] returns for its page
    count. *)
Definition session (fid : string) (w : world) : option (document * meta) :=
  match fs w !! app._pdf_path fid with
  | Some (PdfFile d) =>
      match loaded_meta fid (page_count d) (fs w) with
      | Ok m => Some (d, m)
      | Raise _ => None
      end
  | _ => None
  end.

(** The three edit operations, as requests. *)
Inductive operation :=
| OpRotate (page_idx : Z)
| OpDelete (page_idx : Z)
| OpMove (from_idx : Z) (form_to : option string).

(** The handler of an operation. *)
Definition run (io : io_point -> bool) (fid : string) (op : operation)
  : M response :=
  match op with
  | OpRotate i => app.rotate io fid i
  | OpDelete i => app.delete io fid i
  | OpMove f t => app.move io fid f t
  end.

(** The world a request leaves, all writes succeeding. *)
Definition after (fid : string) (op : operation) (w : world) : world :=
  snd (serve (run io_ok fid op) w).

(** The page [p] is the page the upload had at number [k] (from 1). *)
Definition is_original (d0 : document) (p : page) (k : Z) : Prop :=
  1 <= k /\ content <$> doc_pages d0 !! Z.to_nat (k - 1) = Some (content p).

(** The rotations a page can show. *)
Definition quarter_turn (r : Z) : Prop :=
  r = 0 \/ r = 90 \/ r = 180 \/ r = 270.

(** The invariant of a session uploaded as [d0]: ledger and document have
    the same length, the ledger names, position by position, the original
    number of the page at that position, its entries are distinct and
    lie in [1..N] for the [N] pages of the upload, and every page's
    rotation is a quarter turn. *)
Record session_ok (d0 d : document) (m : meta) : Prop := SessionOk {
  ok_length : Py.len (pages m) = page_count d;
  ok_order : Forall2 (is_original d0) (doc_pages d) (pages m);
  ok_distinct : NoDup (pages m);
  ok_range : Forall (fun k => 1 <= k <= page_count d0) (pages m);
  ok_rotation : Forall (fun p => quarter_turn (rotation p)) (doc_pages d)
}.

(** The worlds a session passes through: the upload of [d0] under [fid],
    then any edit operations with any arguments. *)
Inductive reachable (fid : string) (d0 : document) : world -> Prop :=
| reach_upload w name :
    accepted_name name = true ->
    reachable fid d0
      (snd (serve (app.upload io_ok fid
                     (Some (app.UploadFile name (PdfFile d0)))) w))
| reach_step w op :
    reachable fid d0 w -> reachable fid d0 (after fid op w).

(** The two artifacts of a session hold [d] and [m]. *)
Definition stored (fid : string) (w : world) (d : document) (m : meta) : Prop :=
  fs w !! app._pdf_path fid = Some (PdfFile d)
  /\ fs w !! app._meta_path fid = Some (JsonFile m).

(** The two ways of persisting a change. *)
Inductive save_mode := Incremental | FullRewrite.

(** The mode is read off the kind of the operation, nothing else. *)
Definition mode_of (op : operation) : save_mode :=
  match op with
  | OpRotate _ => Incremental
  | OpDelete _ | OpMove _ _ => FullRewrite
  end.

(** The writes of each mode: an incremental save onto the stored binary
    that keeps the encryption; or a save to the temporary file, the
    replacement of the stored binary by it, and the metadata. *)
Definition writes_of (fid : string) (md : save_mode) : list event :=
  match md with
  | Incremental => [EvSave (app._pdf_path fid) incremental_save]
  | FullRewrite => [EvSave (tmp_path fid) full_rewrite;
                    EvReplace (tmp_path fid) (app._pdf_path fid);
                    EvWriteMeta (app._meta_path fid)]
  end.

(** The target index [move] computes from the form. *)
Definition target (from_idx : Z) (form_to : option string) : result Z :=
  match form_to with
  | Some s => Py.int_of_str s
  | None => Ok from_idx
  end.

(** The preconditions of an operation hold on [d]. *)
Definition applies (d : document) (op : operation) : bool :=
  match op with
  | OpRotate i => rotate_guard d i
  | OpDelete i => delete_guard d i
  | OpMove f form =>
      match target f form with
      | Ok t => move_guard d f t
      | Raise _ => false
      end
  end.

(** The document [d'] a [delete] or [move] whose preconditions hold makes
    of [d], before it is saved. *)
Definition restructures (d : document) (op : operation) (d' : document)
  : Prop :=
  match op with
  | OpRotate _ => False
  | OpDelete i =>
      0 <= i < page_count d /\ 1 < page_count d
      /\ d' = with_pages d (delete (Z.to_nat i) (doc_pages d))
  | OpMove f form =>
      exists t,
        target f form = Ok t
        /\ 0 <= f < page_count d /\ 0 <= t < page_count d /\ f <> t
        /\ d' = with_pages d (lmove (Z.to_nat f) (Z.to_nat t) (doc_pages d))
  end.

(** The rows [edit] shows for a ledger as long as the document. *)
Definition rows (d : document) (ledger : list Z) : list (string * Z) :=
  zip_with (fun p k => ("p." +:+ pretty k, rotation p)) (doc_pages d) ledger.

(** The metadata [_load_meta] makes up for [n] pages. *)
Definition synthesized (n : Z) : meta :=
  {| filename := "unknown.pdf"; pages := Py.range 1 (n + 1) |}.

(** The persisting part of [delete] and [move]: the full save of [d'] to
    the temporary file, the replacement, and the metadata [new_meta] makes
    of the loaded one. *)
Definition full_rewrite_then (io : io_point -> bool) (fid : string) (n : Z)
    (d' : document) (new_meta : meta -> result meta) : M unit :=
  bind (app.doc_save io d' (tmp_path fid) full_rewrite) (fun _ =>
  bind (app.os_replace io (tmp_path fid) (app._pdf_path fid)) (fun _ =>
  bind (app._load_meta fid n) (fun meta =>
  bind (lift (new_meta meta)) (fun m' => app._save_meta io fid m')))).

(** The metadata [delete] and [move] make of the loaded one. *)
Definition ledger_without (i : Z) (m : meta) : result meta :=
  rbind (Py.pop (pages m) i) (fun popped =>
    Ok {| filename := filename m; pages := snd popped |}).

Definition ledger_moved (f t : Z) (m : meta) : result meta :=
  rbind (Py.insert_pop (pages m) f t) (fun ps =>
    Ok {| filename := filename m; pages := ps |}).

(** The two artifacts of a session, as files. *)
Definition binary (fid : string) (w : world) : option file :=
  fs w !! app._pdf_path fid.

Definition metadata (fid : string) (w : world) : option file :=
  fs w !! app._meta_path fid.


(** A document of three pages, the second turned by 90 degrees, with an
    encryption envelope; and the metadata its upload as ["x.pdf"] stores. *)
Definition demo_doc : document :=
  {| doc_pages := [Page 10 0; Page 11 90; Page 12 0]; envelope := Some 7%N |}.

Definition demo_meta : meta := {| filename := "x"; pages := [1; 2; 3] |}.

(** The empty upload directory. *)
Definition empty_dir : world := {| fs := ∅; log := [] |}.

(** The upload of [demo_doc] as ["x.pdf"] under the identifier ["abc"]. *)
Definition demo_world : world :=
  snd (serve (app.upload io_ok "abc"
                (Some (app.UploadFile "x.pdf" (PdfFile demo_doc)))) empty_dir).

(** The binary of ["abc"] without its metadata file. *)
Definition bare_world : world :=
  {| fs := {[ app._pdf_path "abc" := PdfFile demo_doc ]}; log := [] |}.

(** Every write succeeds but the one of the metadata, whose file cannot
    be opened. *)
Definition meta_write_fails (pt : io_point) : bool :=
  match pt with
  | AtWriteMeta => false
  | _ => true
  end.

(** Every write succeeds but the replacement of the stored binary. *)
Definition replace_fails (pt : io_point) : bool :=
  match pt with
  | AtReplace => false
  | _ => true
  end.

(** Every write succeeds but the one of the metadata, which breaks off
    after its file was opened. *)
Definition meta_write_breaks (pt : io_point) : bool :=
  match pt with
  | AtWriteMeta | BeforeWriting AtWriteMeta => false
  | _ => true
  end.

(** ** Requests, footprints and downloads *)

(** Every removal succeeds. *)
Definition rm_ok : string -> bool := fun _ => true.

(** The request can be read: the ["to"] field of a [move], where there is
    one, is an integer. *)
Definition readable (op : operation) : Prop :=
  match op with
  | OpMove f form => exists t, target f form = Ok t
  | _ => True
  end.

(** The three paths of a session. *)
Definition session_paths (fid : string) : list string :=
  [app._pdf_path fid; tmp_path fid; app._meta_path fid].

(** [w'] differs from [w] at most at the paths listed. *)
Definition changes_only (paths : list string) (w w' : world) : Prop :=
  forall p, p ∉ paths -> fs w' !! p = fs w !! p.

(** The last character of a string. *)
Fixpoint last_char (s : string) : option ascii :=
  match s with
  | EmptyString => None
  | String c EmptyString => Some c
  | String _ t => last_char t
  end.

(** The demo session after a rotation, a move and a deletion. *)
Definition edited_world : world :=
  after "abc" (OpDelete 1)
    (after "abc" (OpMove 0 (Some "2"%string))
       (after "abc" (OpRotate 0) demo_world)).

(** The demo session with a ledger that lost its last entry. *)
Definition short_ledger_world : world :=
  {| fs := <[app._meta_path "abc" :=
               JsonFile {| filename := "x"; pages := [1; 2] |}]> (fs demo_world);
     log := [] |}.

(** Removing the binary fails. *)
Definition binary_stays (path : string) : bool :=
  negb (String.eqb path (app._pdf_path "abc")).

(** ** Lists: popping, inserting and moving *)

Section ListMoves.

Context {A : Type}.
Implicit Types (l r : list A) (x : A) (i j f t : nat).

Lemma len_nonneg l : 0 <= Py.len l.
Proof. unfold Py.len. lia. Qed.

Lemma pop_in_range l (i : Z) x :
  0 <= i ->
  l !! Z.to_nat i = Some x ->
  Py.pop l i = Ok (x, take (Z.to_nat i) l ++ drop (S (Z.to_nat i)) l).
Proof.
  intros Hi Hx. unfold Py.pop, Py.from_end.
  apply lookup_lt_Some in Hx as Hlt.
  destruct (Z.ltb_spec i 0); [lia|].
  destruct (Z.leb_spec 0 i); [|lia].
  destruct (Z.ltb_spec i (Py.len l)) as [_|Hge];
    [|unfold Py.len in Hge; lia].
  simpl. now rewrite Hx.
Qed.

Lemma pop_out_of_range l (i : Z) :
  Py.len l <= i -> Py.pop l i = Raise IndexError.
Proof.
  intros Hi. unfold Py.pop, Py.from_end.
  pose proof (len_nonneg l).
  destruct (Z.ltb_spec i 0); [lia|].
  destruct (Z.ltb_spec i (Py.len l)); [lia|].
  now rewrite andb_false_r.
Qed.

Lemma getitem_in_range l (i : Z) x :
  0 <= i -> l !! Z.to_nat i = Some x -> Py.getitem l i = Ok x.
Proof.
  intros Hi Hx. unfold Py.getitem, Py.from_end.
  apply lookup_lt_Some in Hx as Hlt.
  destruct (Z.ltb_spec i 0); [lia|].
  destruct (Z.leb_spec 0 i); [|lia].
  destruct (Z.ltb_spec i (Py.len l)) as [_|Hge];
    [|unfold Py.len in Hge; lia].
  simpl. now rewrite Hx.
Qed.

Lemma insert_in_range l (i : Z) x :
  0 <= i <= Py.len l ->
  Py.insert l i x = take (Z.to_nat i) l ++ x :: drop (Z.to_nat i) l.
Proof.
  intros Hi. unfold Py.insert.
  destruct (Z.ltb_spec i 0); [lia|].
  now rewrite Z.min_l by lia.
Qed.

Lemma length_pop_rest l f :
  (f < length l)%nat -> length (take f l ++ drop (S f) l) = pred (length l).
Proof. intros Hf. rewrite length_app, length_take, length_drop. lia. Qed.

Lemma insert_pop_in_range l (f t : Z) :
  0 <= f < Py.len l -> 0 <= t < Py.len l ->
  Py.insert_pop l f t = Ok (lmove (Z.to_nat f) (Z.to_nat t) l).
Proof.
  intros Hf Ht. unfold Py.insert_pop, lmove.
  destruct (lookup_lt_is_Some_2 l (Z.to_nat f)) as [x Hx];
    [unfold Py.len in Hf; lia|].
  rewrite (pop_in_range l f x) by (lia || done). simpl.
  rewrite Hx. rewrite insert_in_range; [done|].
  unfold Py.len in *. rewrite length_pop_rest by lia. lia.
Qed.

Lemma lmove_length f t l : length (lmove f t l) = length l.
Proof.
  unfold lmove. destruct (l !! f) as [x|] eqn:Hx; [|done].
  apply lookup_lt_Some in Hx.
  rewrite length_app. simpl. rewrite length_take, length_drop.
  rewrite length_pop_rest by done. lia.
Qed.

(** The element at each position after the pop, after the insertion, and
    after both. *)
Lemma lookup_without f (k : nat) l :
  (f <= length l)%nat ->
  (take f l ++ drop (S f) l) !! k = if (k <? f)%nat then l !! k else l !! S k.
Proof.
  intros Hf. destruct (Nat.ltb_spec k f).
  - rewrite lookup_app_l by (rewrite length_take; lia).
    now rewrite lookup_take_lt.
  - rewrite lookup_app_r by (rewrite length_take; lia).
    rewrite length_take, lookup_drop. f_equal. lia.
Qed.

Lemma lookup_with t j x r :
  (t <= length r)%nat ->
  (take t r ++ x :: drop t r) !! j
  = if (j <? t)%nat then r !! j
    else if (j =? t)%nat then Some x else r !! pred j.
Proof.
  intros Ht. destruct (Nat.ltb_spec j t).
  - rewrite lookup_app_l by (rewrite length_take; lia).
    now rewrite lookup_take_lt.
  - rewrite lookup_app_r by (rewrite length_take; lia).
    rewrite length_take. replace (t `min` length r)%nat with t by lia.
    destruct (Nat.eqb_spec j t) as [->|Hne].
    + now rewrite Nat.sub_diag.
    + destruct (j - t)%nat as [|k] eqn:Hk; [lia|].
      change (drop t r !! k = r !! pred j).
      rewrite lookup_drop. f_equal. lia.
Qed.

Lemma lmove_lookup f t j l :
  (f < length l)%nat -> (t < length l)%nat ->
  lmove f t l !! j = l !! came_from f t j.
Proof.
  intros Hf Ht. unfold lmove, came_from.
  destruct (lookup_lt_is_Some_2 l f Hf) as [x Hx]. rewrite Hx. cbv zeta.
  rewrite lookup_with
    by (rewrite length_app, length_take, length_drop; lia).
  rewrite !lookup_without by lia.
  destruct (Nat.ltb_spec j t), (Nat.eqb_spec j t), (Nat.ltb_spec j f),
    (Nat.leb_spec f j), (Nat.ltb_spec t j), (Nat.leb_spec j f),
    (Nat.ltb_spec (pred j) f);
    cbn [andb]; try lia; try done; subst; try done; f_equal; lia.
Qed.

Lemma lmove_Permutation f t l : lmove f t l ≡ₚ l.
Proof.
  unfold lmove. destruct (l !! f) as [x|] eqn:Hx; [|done].
  rewrite <- Permutation_middle, take_drop.
  rewrite <- delete_take_drop. symmetry. now apply delete_Permutation.
Qed.

(** Putting the popped element back where it was. *)
Lemma pop_reinsert l f x :
  l !! f = Some x ->
  take f (take f l ++ drop (S f) l) ++ x :: drop f (take f l ++ drop (S f) l)
  = l.
Proof.
  intros Hx. apply lookup_lt_Some in Hx as Hlt.
  rewrite take_app_le by (rewrite length_take; lia).
  rewrite take_take, Nat.min_id.
  rewrite drop_app_ge by (rewrite length_take; lia).
  rewrite length_take, Nat.min_l, Nat.sub_diag by lia. simpl.
  rewrite <- (take_drop_middle l f x Hx) at 3. done.
Qed.

(** Popping the element just inserted. *)
Lemma lookup_inserted r t x :
  (t <= length r)%nat -> (take t r ++ x :: drop t r) !! t = Some x.
Proof.
  intros Ht. rewrite lookup_app_r by (rewrite length_take; lia).
  rewrite length_take, Nat.min_l, Nat.sub_diag by lia. done.
Qed.

Lemma pop_inserted r t x :
  (t <= length r)%nat ->
  take t (take t r ++ x :: drop t r) ++ drop (S t) (take t r ++ x :: drop t r)
  = r.
Proof.
  intros Ht.
  rewrite take_app_le by (rewrite length_take; lia).
  rewrite take_take, Nat.min_id.
  rewrite drop_app_ge by (rewrite length_take; lia).
  rewrite length_take, Nat.min_l by lia.
  replace (S t - t)%nat with 1%nat by lia. simpl. rewrite drop_0.
  apply take_drop.
Qed.

(** Moving back restores the list. *)
Lemma lmove_inverse f t l :
  (f < length l)%nat -> (t < length l)%nat -> lmove t f (lmove f t l) = l.
Proof.
  intros Hf Ht.
  destruct (lookup_lt_is_Some_2 l f Hf) as [x Hx].
  unfold lmove at 2. rewrite Hx. cbv zeta.
  set (r := take f l ++ drop (S f) l).
  assert (length r = pred (length l)) as Hr by now apply length_pop_rest.
  unfold lmove. rewrite lookup_inserted by lia.
  rewrite pop_inserted by lia.
  now apply pop_reinsert.
Qed.

End ListMoves.

Lemma lmove_Forall2 {A B} (P : A -> B -> Prop) f t (l : list A) (k : list B) :
  Forall2 P l k -> Forall2 P (lmove f t l) (lmove f t k).
Proof.
  intros H. unfold lmove.
  destruct (l !! f) as [x|] eqn:Hx.
  - destruct (Forall2_lookup_l _ _ _ _ _ H Hx) as (y & Hy & Hxy).
    rewrite Hy.
    assert (Forall2 P (take f l ++ drop (S f) l) (take f k ++ drop (S f) k))
      as Hr by (apply Forall2_app; [now apply Forall2_take|now apply Forall2_drop]).
    apply Forall2_app; [now apply Forall2_take|].
    constructor; [done|now apply Forall2_drop].
  - apply lookup_ge_None in Hx.
    rewrite (Forall2_length _ _ _ H) in Hx.
    apply lookup_ge_None in Hx. now rewrite Hx.
Qed.

Lemma lmove_fmap {A B} (g : A -> B) f t (l : list A) :
  g <$> lmove f t l = lmove f t (g <$> l).
Proof.
  unfold lmove. rewrite list_lookup_fmap.
  destruct (l !! f) as [x|]; [|done]. simpl.
  rewrite !fmap_app, fmap_cons, !fmap_take, !fmap_drop, !fmap_app,
    !fmap_take, !fmap_drop. done.
Qed.

Lemma rmap_Forall2 {A B} (g : A -> result B) (l : list A) (k : list B) :
  Forall2 (fun a b => g a = Ok b) l k -> rmap g l = Ok k.
Proof.
  induction 1 as [|a b l k Hab _ IH]; [done|].
  simpl. rewrite Hab. simpl. now rewrite IH.
Qed.

Lemma range_lookup (n : Z) (i : nat) :
  (i < Z.to_nat n)%nat -> Py.range 0 n !! i = Some (Z.of_nat i).
Proof.
  intros Hi. unfold Py.range. rewrite Z.sub_0_r.
  rewrite lookup_seqZ_lt by lia. done.
Qed.

Lemma range_length (a b : Z) : length (Py.range a b) = Z.to_nat (b - a).
Proof. unfold Py.range. apply length_seqZ. Qed.

(** ** The three files of a session are three different paths *)

Lemma string_length_app (a b : string) :
  String.length (a +:+ b) = (String.length a + String.length b)%nat.
Proof. induction a as [|c a IH]; simpl; [done|now rewrite IH]. Qed.

Lemma pdf_path_length fid :
  String.length (app._pdf_path fid) = (String.length fid + 12)%nat.
Proof.
  unfold app._pdf_path, app.os_path_join, app.UPLOAD_DIR.
  rewrite !string_length_app. simpl. lia.
Qed.

Lemma meta_path_length fid :
  String.length (app._meta_path fid) = (String.length fid + 13)%nat.
Proof.
  unfold app._meta_path, app.os_path_join, app.UPLOAD_DIR.
  rewrite !string_length_app. simpl. lia.
Qed.

Lemma tmp_path_length fid :
  String.length (tmp_path fid) = (String.length fid + 16)%nat.
Proof. unfold tmp_path. rewrite string_length_app, pdf_path_length. simpl. lia. Qed.

Lemma pdf_ne_meta fid : app._pdf_path fid <> app._meta_path fid.
Proof.
  intros H. apply (f_equal String.length) in H.
  rewrite pdf_path_length, meta_path_length in H. lia.
Qed.

Lemma tmp_ne_pdf fid : tmp_path fid <> app._pdf_path fid.
Proof.
  intros H. apply (f_equal String.length) in H.
  rewrite pdf_path_length, tmp_path_length in H. lia.
Qed.

Lemma tmp_ne_meta fid : tmp_path fid <> app._meta_path fid.
Proof.
  intros H. apply (f_equal String.length) in H.
  rewrite meta_path_length, tmp_path_length in H. lia.
Qed.

(** ** What the handlers compute *)

Lemma load_meta_run fid n w :
  app._load_meta fid n w = (loaded_meta fid n (fs w), w).
Proof.
  unfold app._load_meta, bind, app.os_path_exists, app.json_load, ret,
    loaded_meta.
  cbv beta. destruct (fs w !! app._meta_path fid) as [[]|] eqn:E; simpl; rewrite ?E; done.
Qed.

Lemma rotate_run fid i w d p :
  fs w !! app._pdf_path fid = Some (PdfFile d) ->
  rotate_guard d i = true ->
  doc_pages d !! Z.to_nat i = Some p ->
  app.rotate io_ok fid i w =
    (Ok (Redirect (app.url_for_edit fid)),
     {| fs := <[app._pdf_path fid :=
                  PdfFile (with_pages d (<[Z.to_nat i := rotated p]> (doc_pages d)))]>
                (fs w);
        log := log w ++ [EvSave (app._pdf_path fid) incremental_save] |}).
Proof.
  intros Hd Hg Hp. unfold rotate_guard in Hg.
  unfold app.rotate, bind, app.fitz_open. rewrite Hd, Hg.
  unfold lift, load_page, wrap.
  assert (0 <= i) as Hi by (apply andb_true_iff in Hg as [? _]; lia).
  destruct (Z.ltb_spec i 0); [lia|].
  rewrite (getitem_in_range _ _ _ Hi Hp).
  unfold app.doc_save, app.write_file, io_ok, ret. done.
Qed.

Lemma rotate_skip io fid i w d :
  fs w !! app._pdf_path fid = Some (PdfFile d) ->
  rotate_guard d i = false ->
  app.rotate io fid i w = (Ok (Redirect (app.url_for_edit fid)), w).
Proof.
  intros Hd Hg. unfold rotate_guard in Hg.
  unfold app.rotate, bind, app.fitz_open. rewrite Hd, Hg. done.
Qed.

Lemma delete_skip io fid i w d :
  fs w !! app._pdf_path fid = Some (PdfFile d) ->
  delete_guard d i = false ->
  app.delete io fid i w = (Ok (Redirect (app.url_for_edit fid)), w).
Proof.
  intros Hd Hg. unfold delete_guard in Hg.
  unfold app.delete, bind, app.fitz_open. rewrite Hd, Hg. done.
Qed.

Lemma move_skip io fid f t form w d :
  fs w !! app._pdf_path fid = Some (PdfFile d) ->
  match form with Some s => Py.int_of_str s | None => Ok f end = Ok t ->
  move_guard d f t = false ->
  app.move io fid f form w = (Ok (Redirect (app.url_for_edit fid)), w).
Proof.
  intros Hd Ht Hg. unfold move_guard in Hg.
  unfold app.move, bind, lift, app.fitz_open. rewrite Ht, Hd, Hg. done.
Qed.

Lemma loaded_meta_after_replace fid n files x y :
  loaded_meta fid n
    (<[app._pdf_path fid := x]> (delete (tmp_path fid) (<[tmp_path fid := y]> files)))
  = loaded_meta fid n files.
Proof.
  unfold loaded_meta.
  rewrite lookup_insert_ne by apply pdf_ne_meta.
  rewrite lookup_delete_ne by apply tmp_ne_meta.
  rewrite lookup_insert_ne by apply tmp_ne_meta. done.
Qed.

(** A full rewrite with every write succeeding: save to the temporary
    file, replace, load the metadata, and a [tail] that writes [m']. *)
Lemma rewrite_run fid n d' (tail : meta -> M unit) m m' w :
  loaded_meta fid n (fs w) = Ok m ->
  (forall w', tail m w' = app._save_meta io_ok fid m' w') ->
  bind (app.doc_save io_ok d' (tmp_path fid) full_rewrite) (fun _ =>
  bind (app.os_replace io_ok (tmp_path fid) (app._pdf_path fid)) (fun _ =>
  bind (app._load_meta fid n) tail)) w
  = (Ok tt, rewritten fid d' m' w).
Proof.
  intros Hm Hk.
  unfold bind at 1. unfold app.doc_save, app.write_file, io_ok.
  unfold bind at 1. unfold app.os_replace. cbn [fs log].
  rewrite lookup_insert_eq.
  unfold bind at 1. rewrite load_meta_run. cbn [fs log].
  rewrite loaded_meta_after_replace, Hm, Hk.
  unfold app._save_meta, app.write_file, rewritten, io_ok. cbn [fs log].
  rewrite delete_insert_eq. rewrite <- !app_assoc. done.
Qed.

Lemma delete_run fid i w d p m k ps :
  fs w !! app._pdf_path fid = Some (PdfFile d) ->
  delete_guard d i = true ->
  doc_pages d !! Z.to_nat i = Some p ->
  loaded_meta fid (page_count d) (fs w) = Ok m ->
  Py.pop (pages m) i = Ok (k, ps) ->
  app.delete io_ok fid i w =
    (Ok (Redirect (app.url_for_edit fid)),
     rewritten fid (with_pages d (delete (Z.to_nat i) (doc_pages d)))
       {| filename := filename m; pages := ps |} w).
Proof.
  intros Hd Hg Hp Hm Hpop. unfold delete_guard in Hg.
  assert (0 <= i) as Hi by (apply andb_true_iff in Hg as [Hg _];
                            apply andb_true_iff in Hg as [? _]; lia).
  unfold app.delete. unfold bind at 1. unfold app.fitz_open. rewrite Hd.
  unfold bind at 1. rewrite Hg.
  unfold bind at 1. unfold lift at 1, delete_page, wrap.
  destruct (Z.ltb_spec i 0); [lia|].
  rewrite (pop_in_range _ _ _ Hi Hp), <- delete_take_drop.
  fold (tmp_path fid). fold full_rewrite.
  erewrite rewrite_run; [done|exact Hm|].
  intros w'. unfold bind, lift. now rewrite Hpop.
Qed.

(** Selecting the moved page numbers moves the pages. *)
Lemma select_moved d (f t : nat) :
  select d (lmove f t (Py.range 0 (page_count d)))
  = Ok (with_pages d (lmove f t (doc_pages d))).
Proof.
  unfold select.
  erewrite rmap_Forall2; [done|].
  apply lmove_Forall2.
  apply Forall2_same_length_lookup_2.
  - rewrite range_length. unfold page_count, Py.len. lia.
  - intros i x p Hx Hp.
    apply lookup_lt_Some in Hp as Hlt.
    rewrite range_lookup in Hx by (unfold page_count, Py.len; lia).
    injection Hx as <-.
    destruct (Z.leb_spec 0 (Z.of_nat i)); [|lia].
    apply getitem_in_range; [lia|]. now rewrite Nat2Z.id.
Qed.

Lemma move_guard_range d f t :
  move_guard d f t = true ->
  0 <= f < page_count d /\ 0 <= t < page_count d /\ f <> t.
Proof.
  unfold move_guard. rewrite !andb_true_iff, negb_true_iff.
  intros [[[[? ?] ?] ?] ?]. lia.
Qed.

Lemma move_run fid f t form w d m ps :
  fs w !! app._pdf_path fid = Some (PdfFile d) ->
  match form with Some s => Py.int_of_str s | None => Ok f end = Ok t ->
  move_guard d f t = true ->
  loaded_meta fid (page_count d) (fs w) = Ok m ->
  Py.insert_pop (pages m) f t = Ok ps ->
  app.move io_ok fid f form w =
    (Ok (Redirect (app.url_for_edit fid)),
     rewritten fid
       (with_pages d (lmove (Z.to_nat f) (Z.to_nat t) (doc_pages d)))
       {| filename := filename m; pages := ps |} w).
Proof.
  intros Hd Ht Hg Hm Hps.
  pose proof (move_guard_range _ _ _ Hg) as (Hf & Ht' & _).
  unfold move_guard in Hg.
  unfold app.move. unfold bind at 1. unfold lift at 1. rewrite Ht.
  unfold bind at 1. unfold app.fitz_open. rewrite Hd.
  unfold bind at 1. rewrite Hg.
  unfold bind at 1. unfold lift at 1.
  rewrite insert_pop_in_range
    by (rewrite ?range_length; unfold Py.len; rewrite ?range_length; lia).
  unfold bind at 1. unfold lift at 1. rewrite select_moved.
  fold (tmp_path fid). fold full_rewrite.
  erewrite rewrite_run; [done|exact Hm|].
  intros w'. unfold bind, lift. now rewrite Hps.
Qed.

Lemma upload_run fid name d w :
  accepted_name name = true ->
  app.upload io_ok fid (Some (app.UploadFile name (PdfFile d))) w =
    (Ok (Redirect (app.url_for_edit fid)),
     {| fs := <[app._meta_path fid :=
                  JsonFile {| filename := Py.rsplit_dot_head name;
                              pages := Py.range 1 (page_count d + 1) |}]>
                (<[app._pdf_path fid := PdfFile d]> (fs w));
        log := log w ++ [EvUpload (app._pdf_path fid);
                         EvWriteMeta (app._meta_path fid)] |}).
Proof.
  intros Hn. unfold accepted_name in Hn.
  unfold app.upload. cbn [app.up_filename app.up_content]. rewrite Hn.
  unfold bind at 1. unfold app.write_file, io_ok.
  unfold bind at 1. unfold app.fitz_open. cbn [fs log].
  rewrite lookup_insert_eq.
  unfold bind, app._save_meta, app.write_file, ret. cbn [fs log].
  rewrite <- app_assoc. done.
Qed.

(** ** Sessions and operations *)

Lemma session_inv_parts fid w d m :
  session fid w = Some (d, m) ->
  fs w !! app._pdf_path fid = Some (PdfFile d)
  /\ loaded_meta fid (page_count d) (fs w) = Ok m.
Proof.
  unfold session. intros H.
  destruct (fs w !! app._pdf_path fid) as [[d'| |]|]; try done.
  destruct (loaded_meta fid (page_count d') (fs w)) eqn:E; try done.
  now injection H as -> ->.
Qed.

Lemma session_build fid w d m :
  fs w !! app._pdf_path fid = Some (PdfFile d) ->
  loaded_meta fid (page_count d) (fs w) = Ok m ->
  session fid w = Some (d, m).
Proof. unfold session. now intros -> ->. Qed.

Lemma session_rewritten fid d m w :
  session fid (rewritten fid d m w) = Some (written full_rewrite d, m).
Proof.
  apply session_build; unfold rewritten, loaded_meta; cbn [fs].
  - rewrite lookup_insert_ne by (apply not_eq_sym, pdf_ne_meta).
    apply lookup_insert_eq.
  - now rewrite lookup_insert_eq.
Qed.

Lemma tmp_gone_rewritten fid d m w :
  fs (rewritten fid d m w) !! tmp_path fid = None.
Proof.
  unfold rewritten. cbn [fs].
  rewrite lookup_insert_ne by (apply not_eq_sym, tmp_ne_meta).
  rewrite lookup_insert_ne by (apply not_eq_sym, tmp_ne_pdf).
  apply lookup_delete_eq.
Qed.

Lemma page_count_length d : page_count d = Z.of_nat (length (doc_pages d)).
Proof. done. Qed.

Lemma rotate_guard_range d i :
  rotate_guard d i = true <-> 0 <= i < page_count d.
Proof. unfold rotate_guard. rewrite andb_true_iff. lia. Qed.

Lemma delete_guard_range d i :
  delete_guard d i = true <-> 0 <= i < page_count d /\ 1 < page_count d.
Proof. unfold delete_guard. rewrite !andb_true_iff. lia. Qed.

Lemma move_guard_iff d f t :
  move_guard d f t = true <->
  0 <= f < page_count d /\ 0 <= t < page_count d /\ f <> t.
Proof.
  unfold move_guard. rewrite !andb_true_iff, negb_true_iff. lia.
Qed.

Lemma page_in_range d i :
  0 <= i < page_count d -> exists p, doc_pages d !! Z.to_nat i = Some p.
Proof.
  intros Hi. apply lookup_lt_is_Some_2. rewrite page_count_length in Hi. lia.
Qed.

(** *** Rotations *)

Lemma norm_rotation_cases r :
  norm_rotation r = 0 \/ norm_rotation r = 90
  \/ norm_rotation r = 180 \/ norm_rotation r = 270.
Proof.
  unfold norm_rotation.
  pose proof (Z.mod_pos_bound r 360 ltac:(lia)) as Hb.
  destruct (Z.eqb_spec ((r mod 360) mod 90) 0) as [E|]; [|now left].
  pose proof (Z.div_mod (r mod 360) 90 ltac:(lia)) as Hd.
  rewrite E in Hd.
  assert (0 <= r mod 360 / 90 < 4) as Hq
    by (split; [apply Z.div_pos; lia|apply Z.div_lt_upper_bound; lia]).
  lia.
Qed.

Lemma rotation_cases p :
  rotation p = 0 \/ rotation p = 90 \/ rotation p = 180 \/ rotation p = 270.
Proof. apply norm_rotation_cases. Qed.

Lemma rotation_rotated p : rotation (rotated p) = (rotation p + 90) mod 360.
Proof.
  unfold rotated, set_rotation. unfold rotation at 1. cbn [Rotate].
  destruct (rotation_cases p) as [-> | [-> | [-> | ->]]]; done.
Qed.

Lemma content_rotated p : content (rotated p) = content p.
Proof. done. Qed.

Lemma rotated_four_times p :
  rotation (rotated (rotated (rotated (rotated p)))) = rotation p.
Proof.
  rewrite !rotation_rotated.
  destruct (rotation_cases p) as [-> | [-> | [-> | ->]]]; done.
Qed.

(** ** Rotate *)

(** One valid [rotate]: the response, the session it leaves and the world. *)
Lemma rotate_step fid i w d m p :
  session fid w = Some (d, m) ->
  0 <= i ->
  doc_pages d !! Z.to_nat i = Some p ->
  serve (app.rotate io_ok fid i) w =
    (Redirect (app.url_for_edit fid), after fid (OpRotate i) w)
  /\ session fid (after fid (OpRotate i) w)
     = Some (with_pages d (<[Z.to_nat i := rotated p]> (doc_pages d)), m)
  /\ log (after fid (OpRotate i) w)
     = log w ++ [EvSave (app._pdf_path fid) incremental_save].
Proof.
  intros Hs Hi Hp. apply session_inv_parts in Hs as [Hd Hm].
  apply lookup_lt_Some in Hp as Hlt.
  assert (rotate_guard d i = true) as Hg
    by (apply rotate_guard_range; rewrite page_count_length; lia).
  unfold after, run, serve. rewrite (rotate_run fid i w d p Hd Hg Hp).
  cbn [fst snd log]. split; [done|]. split; [|done].
  apply session_build; cbn [fs].
  - apply lookup_insert_eq.
  - unfold loaded_meta in *.
    rewrite lookup_insert_ne by apply pdf_ne_meta.
    unfold page_count, Py.len, with_pages in *. cbn [doc_pages].
    now rewrite length_insert.
Qed.

(** C4: a valid [rotate] is answered by the redirect, sets the page's
    rotation to (current + 90) mod 360, keeps the page count, the page
    order, every other page and the ledger; four of them in a row give the
    page its first rotation back and leave every other page as it was. *)
Theorem rotate_quarter_turn fid i w d m :
  session fid w = Some (d, m) ->
  0 <= i < page_count d ->
  exists p d1 d4,
    doc_pages d !! Z.to_nat i = Some p
    /\ serve (app.rotate io_ok fid i) w
       = (Redirect (app.url_for_edit fid), after fid (OpRotate i) w)
    /\ session fid (after fid (OpRotate i) w) = Some (d1, m)
    /\ rotation <$> doc_pages d1 !! Z.to_nat i = Some ((rotation p + 90) mod 360)
    /\ page_count d1 = page_count d
    /\ content <$> doc_pages d1 = content <$> doc_pages d
    /\ (forall j, j <> Z.to_nat i -> doc_pages d1 !! j = doc_pages d !! j)
    /\ session fid
         (after fid (OpRotate i) (after fid (OpRotate i)
           (after fid (OpRotate i) (after fid (OpRotate i) w))))
       = Some (d4, m)
    /\ rotation <$> doc_pages d4 !! Z.to_nat i = Some (rotation p)
    /\ content <$> doc_pages d4 = content <$> doc_pages d
    /\ (forall j, j <> Z.to_nat i -> doc_pages d4 !! j = doc_pages d !! j).
Proof.
  intros Hs Hi.
  destruct (page_in_range d i Hi) as [p Hp].
  apply lookup_lt_Some in Hp as Hlt.
  assert (forall (q : page) (l : list page), (Z.to_nat i < length l)%nat ->
            <[Z.to_nat i := q]> l !! Z.to_nat i = Some q) as Hat
    by (intros; now apply list_lookup_insert_eq).
  assert (forall (q : page) (l : list page), l !! Z.to_nat i = Some p ->
            content p = content q ->
            content <$> <[Z.to_nat i := q]> l = content <$> l) as Hcont.
  { intros q l Hl Hc. rewrite list_fmap_insert, <- Hc.
    apply list_insert_id. now rewrite list_lookup_fmap, Hl. }
  destruct (rotate_step fid i w d m p Hs (proj1 Hi) Hp) as (Hr1 & Hs1 & _).
  set (w1 := after fid (OpRotate i) w) in *.
  set (d1 := with_pages d (<[Z.to_nat i := rotated p]> (doc_pages d))) in *.
  assert (doc_pages d1 !! Z.to_nat i = Some (rotated p)) as Hp1
    by (apply Hat; done).
  destruct (rotate_step fid i w1 d1 m _ Hs1 (proj1 Hi) Hp1) as (_ & Hs2 & _).
  set (w2 := after fid (OpRotate i) w1) in *.
  set (d2 := with_pages d1 _) in Hs2.
  assert (doc_pages d2 !! Z.to_nat i = Some (rotated (rotated p))) as Hp2
    by (apply Hat; subst d1; cbn [doc_pages with_pages];
        rewrite length_insert; done).
  destruct (rotate_step fid i w2 d2 m _ Hs2 (proj1 Hi) Hp2) as (_ & Hs3 & _).
  set (w3 := after fid (OpRotate i) w2) in *.
  set (d3 := with_pages d2 _) in Hs3.
  assert (doc_pages d3 !! Z.to_nat i = Some (rotated (rotated (rotated p))))
    as Hp3
    by (apply Hat; subst d2 d1; cbn [doc_pages with_pages];
        rewrite !length_insert; done).
  destruct (rotate_step fid i w3 d3 m _ Hs3 (proj1 Hi) Hp3) as (_ & Hs4 & _).
  set (d4 := with_pages d3 _) in Hs4.
  exists p, d1, d4.
  split; [done|]. split; [done|]. split; [done|].
  split; [now rewrite Hp1; cbn; rewrite rotation_rotated|].
  split; [subst d1; unfold page_count, Py.len; cbn [doc_pages with_pages];
          now rewrite length_insert|].
  split; [subst d1; cbn [doc_pages with_pages]; now apply Hcont|].
  split; [intros j Hj; subst d1; cbn [doc_pages with_pages];
          now apply list_lookup_insert_ne|].
  split; [done|].
  subst d4 d3 d2 d1. cbn [doc_pages with_pages].
  rewrite !list_insert_insert_eq.
  split; [rewrite Hat by done; cbn; now rewrite rotated_four_times|].
  split; [now apply Hcont|].
  intros j Hj. now apply list_lookup_insert_ne.
Qed.

(** ** Violated preconditions *)

(** C5: on a session whose document opens, an index out of range for
    [rotate], [delete] or [move], a [delete] on a document of one page (or
    none) and a [move] whose target is its source are answered by the
    redirect, not by an error, and leave the world (every file, and the
    list of writes) as it was.  This holds whether or not writes would
    succeed. *)
Theorem violated_preconditions_noop io fid w d :
  fs w !! app._pdf_path fid = Some (PdfFile d) ->
  (forall i, ~ (0 <= i < page_count d) ->
     serve (app.rotate io fid i) w = (Redirect (app.url_for_edit fid), w))
  /\ (forall i, ~ (0 <= i < page_count d) \/ page_count d <= 1 ->
        serve (app.delete io fid i) w = (Redirect (app.url_for_edit fid), w))
  /\ (forall f t s, Py.int_of_str s = Ok t ->
        ~ (0 <= f < page_count d) \/ ~ (0 <= t < page_count d) \/ f = t ->
        serve (app.move io fid f (Some s)) w
        = (Redirect (app.url_for_edit fid), w)).
Proof.
  intros Hd. repeat split.
  - intros i Hi. unfold serve. rewrite (rotate_skip io fid i w d Hd); [done|].
    apply not_true_is_false. now rewrite rotate_guard_range.
  - intros i Hi. unfold serve. rewrite (delete_skip io fid i w d Hd); [done|].
    apply not_true_is_false. rewrite delete_guard_range. lia.
  - intros f t s Hs Hft. unfold serve.
    rewrite (move_skip io fid f t (Some s) w d Hd Hs); [done|].
    apply not_true_is_false. rewrite move_guard_iff. lia.
Qed.

(** ** Delete *)

Lemma record_eta_doc d : with_pages d (doc_pages d) = d.
Proof. now destruct d. Qed.

Lemma record_eta_meta m : {| filename := filename m; pages := pages m |} = m.
Proof. now destruct m. Qed.

(** C2: on a session of more than one page whose ledger is as long as the
    document, [delete] at a valid index is answered by the redirect,
    lowers the page count by one, removes from the ledger the entry at
    that index and no other (the entries before it stay, the entries
    after it move down by one), removes the page at that index from the
    document, and leaves the ledger as long as the document. *)
Theorem delete_removes_page fid i w d m :
  session fid w = Some (d, m) ->
  length (pages m) = length (doc_pages d) ->
  1 < page_count d ->
  0 <= i < page_count d ->
  exists d' m' k,
    serve (app.delete io_ok fid i) w
    = (Redirect (app.url_for_edit fid), after fid (OpDelete i) w)
    /\ session fid (after fid (OpDelete i) w) = Some (d', m')
    /\ page_count d' = page_count d - 1
    /\ pages m !! Z.to_nat i = Some k
    /\ pages m' = delete (Z.to_nat i) (pages m)
    /\ (forall j, (j < Z.to_nat i)%nat -> pages m' !! j = pages m !! j)
    /\ (forall j, (Z.to_nat i <= j)%nat -> pages m' !! j = pages m !! S j)
    /\ doc_pages d' = delete (Z.to_nat i) (doc_pages d)
    /\ Py.len (pages m') = page_count d'.
Proof.
  intros Hs Hlen Hn Hi.
  apply session_inv_parts in Hs as [Hd Hm].
  destruct (page_in_range d i Hi) as [p Hp].
  apply lookup_lt_Some in Hp as Hlt.
  destruct (lookup_lt_is_Some_2 (pages m) (Z.to_nat i)) as [k Hk]; [lia|].
  assert (delete_guard d i = true) as Hg by (apply delete_guard_range; lia).
  pose proof (pop_in_range (pages m) i k (proj1 Hi) Hk) as Hpop.
  rewrite <- delete_take_drop in Hpop.
  pose proof (delete_run fid i w d p m k _ Hd Hg Hp Hm Hpop) as Hrun.
  exists (written full_rewrite (with_pages d (delete (Z.to_nat i) (doc_pages d)))),
    {| filename := filename m; pages := delete (Z.to_nat i) (pages m) |}, k.
  unfold after, run, serve. rewrite Hrun.
  cbn [fst snd pages doc_pages with_pages written full_rewrite encryption].
  split; [done|]. split; [apply session_rewritten|].
  split; [unfold page_count, Py.len; cbn [doc_pages with_pages];
          rewrite length_delete by eauto; lia|].
  split; [done|]. split; [done|].
  split; [intros j Hj; now apply list_lookup_delete_lt|].
  split; [intros j Hj; now apply list_lookup_delete_ge|].
  split; [done|].
  unfold page_count, Py.len. cbn [doc_pages with_pages].
  rewrite !length_delete by eauto. lia.
Qed.

(** ** Move *)

Lemma move_step fid f t s w d m :
  session fid w = Some (d, m) ->
  length (pages m) = length (doc_pages d) ->
  0 <= f < page_count d -> 0 <= t < page_count d -> f <> t ->
  Py.int_of_str s = Ok t ->
  serve (app.move io_ok fid f (Some s)) w
  = (Redirect (app.url_for_edit fid), after fid (OpMove f (Some s)) w)
  /\ session fid (after fid (OpMove f (Some s)) w)
     = Some (written full_rewrite
               (with_pages d (lmove (Z.to_nat f) (Z.to_nat t) (doc_pages d))),
             {| filename := filename m;
                pages := lmove (Z.to_nat f) (Z.to_nat t) (pages m) |}).
Proof.
  intros Hs Hlen Hf Ht Hft Hparse.
  apply session_inv_parts in Hs as [Hd Hm].
  assert (move_guard d f t = true) as Hg by (apply move_guard_iff; lia).
  assert (Py.insert_pop (pages m) f t
          = Ok (lmove (Z.to_nat f) (Z.to_nat t) (pages m))) as Hps
    by (apply insert_pop_in_range; unfold Py.len; rewrite Hlen;
        rewrite page_count_length in *; lia).
  pose proof (move_run fid f t (Some s) w d m _ Hd Hparse Hg Hm Hps) as Hrun.
  unfold after, run, serve. rewrite Hrun. cbn [fst snd].
  split; [done|]. apply session_rewritten.
Qed.

(** C3: on a session whose ledger is as long as the document, [move] with
    valid, different indices is answered by the redirect and puts in the
    place of the page order and of the ledger what
    [l.insert(to, l.pop(from))] makes of each.  Position by position, in
    the document and in the ledger alike: the element that stood at
    [from] stands at [to]; the elements between the two positions have
    shifted by one towards [from]; every other element is where it was
    ([came_from]).  The ledger keeps its entries (as a multiset) and its
    file name, and the [move] from [to] back to [from] restores the
    session, document and ledger. *)
Theorem move_pop_then_insert fid f t s s' w d m :
  session fid w = Some (d, m) ->
  length (pages m) = length (doc_pages d) ->
  0 <= f < page_count d -> 0 <= t < page_count d -> f <> t ->
  Py.int_of_str s = Ok t ->
  Py.int_of_str s' = Ok f ->
  exists d' m',
    serve (app.move io_ok fid f (Some s)) w
    = (Redirect (app.url_for_edit fid), after fid (OpMove f (Some s)) w)
    /\ session fid (after fid (OpMove f (Some s)) w) = Some (d', m')
    /\ Py.insert_pop (doc_pages d) f t = Ok (doc_pages d')
    /\ Py.insert_pop (pages m) f t = Ok (pages m')
    /\ doc_pages d' !! Z.to_nat t = doc_pages d !! Z.to_nat f
    /\ pages m' !! Z.to_nat t = pages m !! Z.to_nat f
    /\ (forall j,
          doc_pages d' !! j
          = doc_pages d !! came_from (Z.to_nat f) (Z.to_nat t) j)
    /\ (forall j,
          pages m' !! j = pages m !! came_from (Z.to_nat f) (Z.to_nat t) j)
    /\ length (doc_pages d') = length (doc_pages d)
    /\ filename m' = filename m
    /\ pages m' ≡ₚ pages m
    /\ exists d'',
         session fid
           (after fid (OpMove t (Some s')) (after fid (OpMove f (Some s)) w))
         = Some (d'', m)
         /\ doc_pages d'' = doc_pages d.
Proof.
  intros Hs Hlen Hf Ht Hft Hparse Hparse'.
  destruct (move_step fid f t s w d m Hs Hlen Hf Ht Hft Hparse) as [Hr Hs1].
  set (w1 := after fid (OpMove f (Some s)) w) in *.
  set (d1 := written full_rewrite _) in Hs1. set (m1 := Meta _ _) in Hs1.
  rewrite page_count_length in Hf, Ht.
  assert (length (pages m1) = length (doc_pages d1)) as Hlen1
    by (subst m1 d1; cbn [pages doc_pages with_pages written full_rewrite encryption];
        now rewrite !lmove_length).
  assert (page_count d1 = page_count d) as Hn1
    by (subst d1; unfold page_count, Py.len;
        cbn [doc_pages with_pages written full_rewrite encryption];
        now rewrite lmove_length).
  destruct (move_step fid t f s' w1 d1 m1 Hs1 Hlen1) as [_ Hs2];
    [rewrite Hn1, page_count_length; lia ..|done|done|].
  exists d1, m1.
  split; [done|]. split; [done|].
  split; [subst d1; cbn [doc_pages with_pages written full_rewrite encryption];
          apply insert_pop_in_range; unfold Py.len; lia|].
  split; [subst m1; cbn [pages];
          apply insert_pop_in_range; unfold Py.len; lia|].
  assert (forall j,
            doc_pages d1 !! j
            = doc_pages d !! came_from (Z.to_nat f) (Z.to_nat t) j) as Hdoc
    by (intros j; subst d1;
        cbn [doc_pages with_pages written full_rewrite encryption];
        apply lmove_lookup; lia).
  assert (forall j,
            pages m1 !! j
            = pages m !! came_from (Z.to_nat f) (Z.to_nat t) j) as Hled
    by (intros j; subst m1; cbn [pages]; apply lmove_lookup; lia).
  assert (came_from (Z.to_nat f) (Z.to_nat t) (Z.to_nat t) = Z.to_nat f)
    as Hat by (unfold came_from; now rewrite Nat.eqb_refl).
  split; [now rewrite Hdoc, Hat|]. split; [now rewrite Hled, Hat|].
  split; [exact Hdoc|]. split; [exact Hled|].
  split; [subst d1; cbn [doc_pages with_pages written full_rewrite encryption];
          apply lmove_length|].
  split; [done|].
  split; [apply lmove_Permutation|].
  eexists. rewrite Hs2. subst d1 m1.
  cbn [doc_pages pages filename with_pages written full_rewrite encryption].
  rewrite !lmove_inverse by lia. now rewrite record_eta_meta.
Qed.

(** ** The session invariant *)

Lemma session_ok_upload d0 name :
  session_ok d0 d0 {| filename := name; pages := Py.range 1 (page_count d0 + 1) |}.
Proof.
  assert (length (Py.range 1 (page_count d0 + 1)) = length (doc_pages d0))
    as Hlen by (rewrite range_length, page_count_length; lia).
  split; cbn [pages].
  - unfold Py.len. rewrite Hlen. done.
  - apply Forall2_same_length_lookup_2; [done|].
    intros i p k Hp Hk. unfold Py.range in Hk.
    apply lookup_seqZ in Hk as [-> Hi]. split; [lia|].
    replace (Z.to_nat (1 + Z.of_nat i - 1)) with i by lia.
    now rewrite Hp.
  - apply NoDup_seqZ.
  - apply Forall_forall. intros k Hk. unfold Py.range in Hk.
    apply elem_of_seqZ in Hk. lia.
  - apply Forall_forall. intros p _. apply rotation_cases.
Qed.

Lemma session_ok_rotate d0 d m i p :
  session_ok d0 d m ->
  doc_pages d !! i = Some p ->
  session_ok d0 (with_pages d (<[i := rotated p]> (doc_pages d))) m.
Proof.
  intros [Hl Ho Hd Hr Hq] Hp. split; cbn [doc_pages with_pages]; try done.
  - rewrite Hl. unfold page_count, Py.len. cbn [doc_pages with_pages].
    now rewrite length_insert.
  - destruct (Forall2_lookup_l _ _ _ _ _ Ho Hp) as (k & Hk & Hpk).
    rewrite <- (list_insert_id (pages m) i k Hk).
    apply Forall2_insert; [done|]. exact Hpk.
  - apply Forall_insert; [done|]. apply rotation_cases.
Qed.

Lemma session_ok_delete d0 d m i name :
  session_ok d0 d m ->
  session_ok d0 (with_pages d (delete i (doc_pages d)))
    {| filename := name; pages := delete i (pages m) |}.
Proof.
  intros [Hl Ho Hd Hr Hq]. split; cbn [doc_pages with_pages pages].
  - unfold page_count, Py.len in *. cbn [doc_pages with_pages].
    assert (length (pages m) = length (doc_pages d)) as Hlen by lia.
    destruct (decide (i < length (pages m))%nat) as [Hi|Hi].
    + rewrite !length_delete by (apply lookup_lt_is_Some; lia). lia.
    + rewrite !delete_take_drop, !take_ge, !drop_ge, !app_nil_r by lia. lia.
  - now apply Forall2_delete.
  - apply (sublist_NoDup _ (pages m)); [exact Hd|apply sublist_delete].
  - now apply Forall_delete.
  - now apply Forall_delete.
Qed.

Lemma session_ok_move d0 d m f t name :
  session_ok d0 d m ->
  session_ok d0 (with_pages d (lmove f t (doc_pages d)))
    {| filename := name; pages := lmove f t (pages m) |}.
Proof.
  intros [Hl Ho Hd Hr Hq]. split; cbn [doc_pages with_pages pages].
  - unfold page_count, Py.len in *. cbn [doc_pages with_pages].
    now rewrite !lmove_length.
  - now apply lmove_Forall2.
  - now rewrite lmove_Permutation.
  - now rewrite lmove_Permutation.
  - now rewrite lmove_Permutation.
Qed.

Lemma session_ok_written d0 d m opts :
  session_ok d0 d m -> session_ok d0 (written opts d) m.
Proof.
  intros [Hl Ho Hd Hr Hq].
  unfold written. destruct (encryption opts); [done|]. now split.
Qed.

Lemma stored_session fid w d m :
  stored fid w d m -> session fid w = Some (d, m).
Proof.
  intros [Hd Hm]. apply session_build; [done|].
  unfold loaded_meta. now rewrite Hm.
Qed.

Lemma stored_rewritten fid d m w :
  stored fid (rewritten fid d m w) (written full_rewrite d) m.
Proof.
  split; unfold rewritten; cbn [fs].
  - rewrite lookup_insert_ne by (apply not_eq_sym, pdf_ne_meta).
    apply lookup_insert_eq.
  - apply lookup_insert_eq.
Qed.



(** ** Sessions that are not there *)

(** C7, as the code has it: where no binary is stored for [fid], [edit]
    answers "not found" with status 404, while [rotate], [delete] and
    [move] open the document without looking first, so the
    [FileNotFoundError] of [fitz.open] leaves the handler and the request
    is answered with status 500.  Nothing is written. *)
Theorem missing_session_responses io fid w :
  fs w !! app._pdf_path fid = None ->
  serve (app.edit fid) w = (Plain "ファイルが見つかりません" 404, w)
  /\ (forall i, serve (app.rotate io fid i) w
                = (InternalServerError FileNotFoundError, w))
  /\ (forall i, serve (app.delete io fid i) w
                = (InternalServerError FileNotFoundError, w))
  /\ (forall f form t, target f form = Ok t ->
        serve (app.move io fid f form) w
        = (InternalServerError FileNotFoundError, w)).
Proof.
  intros Hnone. repeat split.
  - unfold serve, app.edit, bind, app.os_path_exists. now rewrite Hnone.
  - intros i. unfold serve, app.rotate, bind, app.fitz_open. now rewrite Hnone.
  - intros i. unfold serve, app.delete, bind, app.fitz_open. now rewrite Hnone.
  - intros f form t Ht. unfold target in Ht.
    unfold serve, app.move, bind, lift, app.fitz_open. now rewrite Ht, Hnone.
Qed.

(** ** The target of a move *)

(** C9, as the code has it: on a session whose document opens, a [move]
    without a ["to"] field takes its source as its target and is a no-op,
    answered by the redirect; a ["to"] field that [int] rejects is not
    replaced by a default: the [ValueError] leaves the handler before the
    document is opened, the request is answered with status 500, and the
    world is as it was. *)
Theorem move_target_absent_or_malformed io fid f w d :
  fs w !! app._pdf_path fid = Some (PdfFile d) ->
  serve (app.move io fid f None) w = (Redirect (app.url_for_edit fid), w)
  /\ (forall s e, Py.int_of_str s = Raise e ->
        serve (app.move io fid f (Some s)) w = (InternalServerError e, w)).
Proof.
  intros Hd. split.
  - unfold serve. rewrite (move_skip io fid f f None w d Hd eq_refl); [done|].
    apply not_true_is_false. rewrite move_guard_iff. lia.
  - intros s e Hs. unfold serve, app.move, bind, lift. now rewrite Hs.
Qed.

(** ** Sessions without a metadata file *)

Lemma get_page_info_rows d ledger :
  length ledger = length (doc_pages d) ->
  app._get_page_info d ledger = Ok (rows d ledger).
Proof.
  intros Hlen. unfold app._get_page_info, rows.
  apply rmap_Forall2. apply Forall2_same_length_lookup_2.
  - rewrite range_length, length_zip_with_l by lia.
    rewrite page_count_length. lia.
  - intros i x row Hx Hrow.
    apply lookup_zip_with_Some in Hrow as (p & k & -> & Hp & Hk).
    apply lookup_lt_Some in Hp as Hlt.
    rewrite range_lookup in Hx by (rewrite page_count_length; lia).
    injection Hx as <-.
    unfold load_page, wrap.
    destruct (Z.ltb_spec (Z.of_nat i) 0); [lia|].
    rewrite (getitem_in_range (doc_pages d) _ p) by (rewrite ?Nat2Z.id; done || lia).
    cbn [rbind].
    rewrite (getitem_in_range ledger _ k) by (rewrite ?Nat2Z.id; done || lia).
    done.
Qed.

(** C10: where the binary of a session is stored and its metadata file is
    not, [_load_meta] does not fail but returns the file name
    ["unknown.pdf"] and the ledger [1..n] for the [n] pages of the
    document; [edit] lists the pages under that ledger, [rotate] leaves
    the session with it, and a [delete] or [move] whose preconditions hold
    applies its change to that ledger and stores the result. *)
Theorem missing_metadata_is_synthesized fid w d :
  fs w !! app._pdf_path fid = Some (PdfFile d) ->
  fs w !! app._meta_path fid = None ->
  let m0 := synthesized (page_count d) in
  app._load_meta fid (page_count d) w = (Ok m0, w)
  /\ filename m0 = "unknown.pdf"%string
  /\ (forall k, k ∈ pages m0 <-> 1 <= k <= page_count d)
  /\ (forall j, (j < length (doc_pages d))%nat ->
                pages m0 !! j = Some (Z.of_nat j + 1))
  /\ Py.len (pages m0) = page_count d
  /\ session fid w = Some (d, m0)
  /\ serve (app.edit fid) w
     = (Rendered fid "unknown.pdf.pdf" (page_count d) (rows d (pages m0)), w)
  /\ (forall i, exists d', session fid (after fid (OpRotate i) w) = Some (d', m0))
  /\ (forall i, delete_guard d i = true ->
        exists d', stored fid (after fid (OpDelete i) w) d'
                     {| filename := "unknown.pdf";
                        pages := delete (Z.to_nat i) (pages m0) |})
  /\ (forall f form t, target f form = Ok t -> move_guard d f t = true ->
        exists d', stored fid (after fid (OpMove f form) w) d'
                     {| filename := "unknown.pdf";
                        pages := lmove (Z.to_nat f) (Z.to_nat t) (pages m0) |}).
Proof.
  intros Hd Hnone m0.
  assert (loaded_meta fid (page_count d) (fs w) = Ok m0) as Hload
    by (unfold loaded_meta; now rewrite Hnone).
  assert (length (pages m0) = length (doc_pages d)) as Hlen
    by (subst m0; cbn [pages synthesized]; rewrite range_length,
        page_count_length; lia).
  pose proof (session_build fid w d m0 Hd Hload) as Hs.
  split; [now rewrite load_meta_run, Hload|].
  split; [done|].
  split; [intros k; subst m0; cbn [pages synthesized]; unfold Py.range;
          rewrite elem_of_seqZ; lia|].
  split; [intros j Hj; subst m0; cbn [pages synthesized]; unfold Py.range;
          rewrite lookup_seqZ_lt by (rewrite page_count_length; lia);
          f_equal; lia|].
  split; [unfold Py.len; rewrite Hlen; done|].
  split; [done|].
  split.
  { unfold serve, app.edit. unfold bind at 1. unfold app.os_path_exists.
    rewrite Hd. cbn [negb]. unfold bind at 1. unfold app.fitz_open. rewrite Hd.
    unfold bind at 1. rewrite load_meta_run, Hload.
    unfold bind, lift. rewrite (get_page_info_rows d (pages m0) Hlen).
    unfold ret. do 2 f_equal. unfold rows, Py.len.
    rewrite length_zip_with_l by lia. done. }
  split.
  { intros i. destruct (rotate_guard d i) eqn:Hg.
    - apply rotate_guard_range in Hg as Hi.
      destruct (page_in_range d i Hi) as [p Hp].
      destruct (rotate_step fid i w d m0 p Hs (proj1 Hi) Hp) as (_ & Hs1 & _).
      eauto.
    - unfold after, run, serve. rewrite (rotate_skip io_ok fid i w d Hd Hg).
      eauto. }
  split.
  { intros i Hg.
    pose proof (proj1 (delete_guard_range d i) Hg) as [Hi Hn].
    destruct (page_in_range d i Hi) as [p Hp].
    rewrite page_count_length in Hi.
    destruct (lookup_lt_is_Some_2 (pages m0) (Z.to_nat i)) as [k Hk]; [lia|].
    pose proof (pop_in_range (pages m0) i k (proj1 Hi) Hk) as Hpop.
    rewrite <- delete_take_drop in Hpop.
    unfold after, run, serve.
    rewrite (delete_run fid i w d p m0 k _ Hd Hg Hp Hload Hpop). cbn [snd].
    eexists. apply stored_rewritten. }
  intros f form t Hparse Hg.
  apply move_guard_iff in Hg as Hr. rewrite page_count_length in Hr.
  assert (Py.insert_pop (pages m0) f t
          = Ok (lmove (Z.to_nat f) (Z.to_nat t) (pages m0))) as Hps
    by (apply insert_pop_in_range; unfold Py.len; lia).
  unfold after, run, serve.
  rewrite (move_run fid f t form w d m0 _ Hd Hparse Hg Hload Hps). cbn [snd].
  eexists. apply stored_rewritten.
Qed.

(** ** Failing writes *)

Lemma bind_ext {A B} (m : M A) (k k' : A -> M B) w :
  (forall a w', k a w' = k' a w') -> bind m k w = bind m k' w.
Proof. intros H. unfold bind. destruct (m w) as [[a|e] w']; [apply H|done]. Qed.

Lemma snd_bind_ret {A B} (m : M A) (b : B) w :
  snd (bind m (fun _ => ret b) w) = snd (m w).
Proof. unfold bind, ret. now destruct (m w) as [[] ?]. Qed.

Lemma bind_lift_ok {A B} (a : A) (k : A -> M B) w :
  bind (lift (Ok a)) k w = k a w.
Proof. done. Qed.

(** The world [delete] leaves, by cases on what it meets. *)
Lemma delete_world io fid i w :
  snd (app.delete io fid i w) =
  match fs w !! app._pdf_path fid with
  | Some (PdfFile d) =>
      if delete_guard d i then
        match delete_page d i with
        | Ok d' => snd (full_rewrite_then io fid (page_count d) d'
                          (ledger_without i) w)
        | Raise _ => w
        end
      else w
  | _ => w
  end.
Proof.
  unfold app.delete. unfold bind at 1. unfold app.fitz_open.
  destruct (fs w !! app._pdf_path fid) as [[d| |]|]; try done.
  rewrite snd_bind_ret. fold (delete_guard d i).
  destruct (delete_guard d i); [|done].
  destruct (delete_page d i) as [d'|e]; [|done].
  rewrite bind_lift_ok. f_equal.
  unfold full_rewrite_then. do 3 (apply bind_ext; intros ? ?).
  unfold bind, lift, ledger_without. now destruct (Py.pop _ _).
Qed.

(** The world [move] leaves, by cases on what it meets. *)
Lemma move_world io fid f form w :
  snd (app.move io fid f form w) =
  match target f form with
  | Ok t =>
      match fs w !! app._pdf_path fid with
      | Some (PdfFile d) =>
          if move_guard d f t then
            match Py.insert_pop (Py.range 0 (page_count d)) f t with
            | Ok order =>
                match select d order with
                | Ok d' => snd (full_rewrite_then io fid (page_count d) d'
                                  (ledger_moved f t) w)
                | Raise _ => w
                end
            | Raise _ => w
            end
          else w
      | _ => w
      end
  | Raise _ => w
  end.
Proof.
  unfold app.move. unfold bind at 1. unfold lift at 1. fold (target f form).
  destruct (target f form) as [t|e]; [|done].
  unfold bind at 1. unfold app.fitz_open.
  destruct (fs w !! app._pdf_path fid) as [[d| |]|]; try done.
  rewrite snd_bind_ret. fold (move_guard d f t).
  destruct (move_guard d f t); [|done].
  destruct (Py.insert_pop (Py.range 0 (page_count d)) f t) as [order|]; [|done].
  rewrite bind_lift_ok.
  destruct (select d order) as [d'|]; [|done].
  rewrite bind_lift_ok. f_equal.
  unfold full_rewrite_then. do 3 (apply bind_ext; intros ? ?).
  unfold bind, lift, ledger_moved. now destruct (Py.insert_pop _ _ _).
Qed.


(** The world the persisting part leaves, write by write. *)
Lemma full_rewrite_world io fid n d' new_meta w :
  snd (full_rewrite_then io fid n d' new_meta w) =
  let saved := PdfFile (written full_rewrite d') in
  let e1 := EvSave (tmp_path fid) full_rewrite in
  let e2 := EvReplace (tmp_path fid) (app._pdf_path fid) in
  let e3 := EvWriteMeta (app._meta_path fid) in
  let files2 := <[app._pdf_path fid := saved]> (delete (tmp_path fid) (fs w)) in
  let w2 := {| fs := files2; log := log w ++ [e1; e2] |} in
  if io AtSave then
    if io AtReplace then
      match loaded_meta fid n (fs w) with
      | Ok m =>
          match new_meta m with
          | Ok m' =>
              if io AtWriteMeta
              then {| fs := <[app._meta_path fid := JsonFile m']> files2;
                      log := log w ++ [e1; e2; e3] |}
              else if io (BeforeWriting AtWriteMeta) then w2
              else {| fs := <[app._meta_path fid := RawFile]> files2;
                      log := log w ++ [e1; e2] |}
          | Raise _ => w2
          end
      | Raise _ => w2
      end
    else {| fs := <[tmp_path fid := saved]> (fs w); log := log w ++ [e1] |}
  else if io (BeforeWriting AtSave) then w
  else {| fs := <[tmp_path fid := RawFile]> (fs w); log := log w |}.
Proof.
  cbv zeta. unfold full_rewrite_then.
  unfold bind at 1. unfold app.doc_save, app.write_file.
  destruct (io AtSave); [|now destruct (io (BeforeWriting AtSave))].
  unfold bind at 1. unfold app.os_replace. cbn [fs log].
  destruct (io AtReplace); [|done].
  rewrite lookup_insert_eq.
  unfold bind at 1. rewrite load_meta_run. cbn [fs log].
  rewrite loaded_meta_after_replace, delete_insert_eq, <- !app_assoc.
  cbn [app].
  destruct (loaded_meta fid n (fs w)) as [m|e]; [|done].
  unfold bind, lift. destruct (new_meta m) as [m'|e]; [|done].
  unfold app._save_meta, app.write_file.
  destruct (io AtWriteMeta);
    [|now destruct (io (BeforeWriting AtWriteMeta))].
  cbn [snd fs log]. now rewrite <- !app_assoc.
Qed.


Lemma serve_snd (h : M response) w : snd (serve h w) = snd (h w).
Proof. unfold serve. now destruct (h w) as [[] ?]. Qed.


(** ** How each operation persists *)

Lemma delete_page_in_range d i :
  0 <= i < page_count d ->
  delete_page d i = Ok (with_pages d (delete (Z.to_nat i) (doc_pages d))).
Proof.
  intros Hi. destruct (page_in_range d i Hi) as [p Hp].
  unfold delete_page, wrap. destruct (Z.ltb_spec i 0); [lia|].
  now rewrite (pop_in_range _ _ _ (proj1 Hi) Hp), <- delete_take_drop.
Qed.

(** The writes an operation issues, all succeeding. *)
Lemma writes_by_kind fid op w d m :
  session fid w = Some (d, m) ->
  length (pages m) = length (doc_pages d) ->
  log (after fid op w)
  = log w ++ (if applies d op then writes_of fid (mode_of op) else [])
  /\ (applies d op = false -> after fid op w = w).
Proof.
  intros Hs Hlen. pose proof Hs as Hs'.
  apply session_inv_parts in Hs as [Hd Hload].
  destruct op as [i | i | f form]; cbn [applies mode_of writes_of].
  - destruct (rotate_guard d i) eqn:Hg.
    + apply rotate_guard_range in Hg as Hi.
      destruct (page_in_range d i Hi) as [p Hp].
      destruct (rotate_step fid i w d m p Hs' (proj1 Hi) Hp) as (_ & Hs1 & Hlog).
      split; [done|]. discriminate.
    + unfold after, run, serve. rewrite (rotate_skip io_ok fid i w d Hd Hg).
      cbn [snd]. now rewrite app_nil_r.
  - unfold after, run, serve. destruct (delete_guard d i) eqn:Hg.
    + pose proof (proj1 (delete_guard_range d i) Hg) as [Hi Hn].
      destruct (page_in_range d i Hi) as [p Hp].
      rewrite page_count_length in Hi.
      destruct (lookup_lt_is_Some_2 (pages m) (Z.to_nat i)) as [k Hk]; [lia|].
      pose proof (pop_in_range (pages m) i k (proj1 Hi) Hk) as Hpop.
      rewrite <- delete_take_drop in Hpop.
      rewrite (delete_run fid i w d p m k _ Hd Hg Hp Hload Hpop).
      split; [done|]. discriminate.
    + rewrite (delete_skip io_ok fid i w d Hd Hg). cbn [snd].
      now rewrite app_nil_r.
  - unfold after, run, serve. destruct (target f form) as [t|e] eqn:Hparse.
    + destruct (move_guard d f t) eqn:Hg.
      * apply move_guard_iff in Hg as Hr.
        rewrite page_count_length in Hr.
        assert (Py.insert_pop (pages m) f t
                = Ok (lmove (Z.to_nat f) (Z.to_nat t) (pages m))) as Hps
          by (apply insert_pop_in_range; unfold Py.len; lia).
        rewrite (move_run fid f t form w d m _ Hd Hparse Hg Hload Hps).
        split; [done|]. discriminate.
      * rewrite (move_skip io_ok fid f t form w d Hd Hparse Hg). cbn [snd].
        now rewrite app_nil_r.
    + unfold app.move. unfold bind at 1. unfold lift at 1.
      unfold target in Hparse. rewrite Hparse. cbn [snd].
      now rewrite app_nil_r.
Qed.

(** What a full rewrite of [d'] leaves where the save to the temporary
    file or the replacement fails. *)
Lemma full_rewrite_before_replace io fid n d' new_meta w :
  let w' := snd (full_rewrite_then io fid n d' new_meta w) in
  (io AtSave = false ->
   binary fid w' = binary fid w /\ metadata fid w' = metadata fid w)
  /\ (io AtSave = true -> io AtReplace = false ->
      binary fid w' = binary fid w
      /\ fs w' !! tmp_path fid = Some (PdfFile (written full_rewrite d'))
      /\ metadata fid w' = metadata fid w).
Proof.
  cbv zeta. rewrite full_rewrite_world. cbv zeta. unfold binary, metadata.
  split.
  - intros ->. destruct (io (BeforeWriting AtSave)); [done|]. cbn [fs].
    rewrite lookup_insert_ne by apply tmp_ne_pdf.
    now rewrite lookup_insert_ne by apply tmp_ne_meta.
  - intros -> ->. cbn [fs].
    rewrite lookup_insert_ne by apply tmp_ne_pdf.
    rewrite lookup_insert_eq.
    now rewrite lookup_insert_ne by apply tmp_ne_meta.
Qed.

Lemma rewritten_files fid d m w :
  binary fid (rewritten fid d m w) = Some (PdfFile (written full_rewrite d))
  /\ fs (rewritten fid d m w) !! tmp_path fid = None
  /\ metadata fid (rewritten fid d m w) = Some (JsonFile m).
Proof.
  unfold binary, metadata, rewritten. cbn [fs].
  split; [|split].
  - rewrite lookup_insert_ne by (apply not_eq_sym, pdf_ne_meta).
    apply lookup_insert_eq.
  - rewrite lookup_insert_ne by (apply not_eq_sym, tmp_ne_meta).
    rewrite lookup_insert_ne by (apply not_eq_sym, tmp_ne_pdf).
    apply lookup_delete_eq.
  - apply lookup_insert_eq.
Qed.

(** C8: on a session whose ledger is as long as the document, how an
    operation persists is read off its kind, whatever the document.  An
    operation whose preconditions hold issues exactly the writes of the
    mode of its kind, and one whose preconditions fail leaves the world
    as it was.  [rotate] saves incrementally with [PDF_ENCRYPT_KEEP] onto
    the stored binary: the stored binary becomes the document with that
    page rotated, under the envelope it had, and no other file changes.
    [delete] and [move] save the new document in full to the temporary
    file, then replace the stored binary by it: afterwards the stored
    binary is the new document as the full save writes it and the
    temporary file is gone; where the replacement fails the stored binary
    and the metadata are the prior ones and the temporary file holds the
    new document; where the save fails the stored binary and the metadata
    are the prior ones: the binary is never written in place. *)
Theorem persistence_by_operation_kind fid w d m :
  session fid w = Some (d, m) ->
  length (pages m) = length (doc_pages d) ->
  (forall op,
     log (after fid op w)
     = log w ++ (if applies d op then writes_of fid (mode_of op) else [])
     /\ (applies d op = false -> after fid op w = w))
  /\ (forall i p,
        0 <= i < page_count d ->
        doc_pages d !! Z.to_nat i = Some p ->
        let w' := after fid (OpRotate i) w in
        let d' := with_pages d (<[Z.to_nat i := rotated p]> (doc_pages d)) in
        mode_of (OpRotate i) = Incremental
        /\ incremental incremental_save = true
        /\ encryption incremental_save = PDF_ENCRYPT_KEEP
        /\ binary fid w' = Some (PdfFile d')
        /\ envelope d' = envelope d
        /\ session fid w' = Some (d', m)
        /\ (forall path, path <> app._pdf_path fid ->
                         fs w' !! path = fs w !! path))
  /\ (forall op d',
        restructures d op d' ->
        let saved := PdfFile (written full_rewrite d') in
        mode_of op = FullRewrite
        /\ incremental full_rewrite = false
        /\ binary fid (after fid op w) = Some saved
        /\ fs (after fid op w) !! tmp_path fid = None
        /\ (forall io,
              io AtSave = true -> io AtReplace = false ->
              let w' := snd (serve (run io fid op) w) in
              binary fid w' = binary fid w
              /\ fs w' !! tmp_path fid = Some saved
              /\ metadata fid w' = metadata fid w)
        /\ (forall io,
              io AtSave = false ->
              let w' := snd (serve (run io fid op) w) in
              binary fid w' = binary fid w
              /\ metadata fid w' = metadata fid w)).
Proof.
  intros Hs Hlen.
  split; [intros op; now apply (writes_by_kind fid op w d m)|].
  pose proof Hs as Hs'. apply session_inv_parts in Hs' as [Hd Hload].
  split.
  - intros i p Hi Hp. cbv zeta.
    assert (rotate_guard d i = true) as Hg by (apply rotate_guard_range; lia).
    unfold after, run, serve. rewrite (rotate_run fid i w d p Hd Hg Hp).
    cbn [snd]. unfold binary. cbn [fs].
    do 3 (split; [done|]).
    split; [apply lookup_insert_eq|]. split; [done|].
    split.
    + unfold session. cbn [fs]. rewrite lookup_insert_eq.
      unfold loaded_meta in *. cbn [fs].
      rewrite lookup_insert_ne by apply pdf_ne_meta.
      replace (page_count (with_pages d _)) with (page_count d)
        by (unfold page_count, Py.len; cbn [doc_pages with_pages];
            now rewrite length_insert).
      now rewrite Hload.
    + intros path Hne. now rewrite lookup_insert_ne by congruence.
  - intros op d' Hop. cbv zeta.
    destruct op as [i | i | f form]; cbn [restructures] in Hop; [done| |].
    + destruct Hop as (Hi & Hn & ->).
      assert (delete_guard d i = true) as Hg
        by (apply delete_guard_range; lia).
      destruct (page_in_range d i Hi) as [p Hp].
      assert (exists m', after fid (OpDelete i) w
                = rewritten fid
                    (with_pages d (delete (Z.to_nat i) (doc_pages d))) m' w)
        as [m' ->].
      { rewrite page_count_length in Hi.
        destruct (lookup_lt_is_Some_2 (pages m) (Z.to_nat i)) as [k Hk]; [lia|].
        pose proof (pop_in_range (pages m) i k (proj1 Hi) Hk) as Hpop.
        rewrite <- delete_take_drop in Hpop.
        unfold after, run, serve.
        rewrite (delete_run fid i w d p m k _ Hd Hg Hp Hload Hpop). eauto. }
      destruct (rewritten_files fid
                  (with_pages d (delete (Z.to_nat i) (doc_pages d))) m' w)
        as (Hb & Ht & _).
      do 2 (split; [done|]). split; [exact Hb|]. split; [exact Ht|].
      split; intros io; rewrite serve_snd; cbn [run];
        rewrite delete_world, Hd, Hg, (delete_page_in_range d i Hi);
        apply full_rewrite_before_replace.
    + destruct Hop as (t & Hparse & Hf & Ht & Hft & ->).
      assert (move_guard d f t = true) as Hg by (apply move_guard_iff; lia).
      assert (Py.insert_pop (pages m) f t
              = Ok (lmove (Z.to_nat f) (Z.to_nat t) (pages m))) as Hps
        by (apply insert_pop_in_range; unfold Py.len;
            rewrite page_count_length in *; lia).
      assert (Py.insert_pop (Py.range 0 (page_count d)) f t
              = Ok (lmove (Z.to_nat f) (Z.to_nat t)
                      (Py.range 0 (page_count d)))) as Hord
        by (apply insert_pop_in_range; unfold Py.len;
            rewrite range_length; lia).
      unfold after at 1 2. unfold run at 1 2. unfold serve at 1 2.
      unfold target in Hparse.
      rewrite (move_run fid f t form w d m _ Hd Hparse Hg Hload Hps).
      cbn [snd].
      destruct (rewritten_files fid
                  (with_pages d (lmove (Z.to_nat f) (Z.to_nat t) (doc_pages d)))
                  {| filename := filename m;
                     pages := lmove (Z.to_nat f) (Z.to_nat t) (pages m) |} w)
        as (Hb & Htmp & _).
      do 2 (split; [done|]). split; [exact Hb|]. split; [exact Htmp|].
      split; intros io; rewrite serve_snd; cbn [run];
        rewrite move_world; unfold target; rewrite Hparse, Hd, Hg, Hord,
          select_moved;
        apply full_rewrite_before_replace.
Qed.

(** ** A session of three pages *)

Example demo_session : session "abc" demo_world = Some (demo_doc, demo_meta).
Proof. vm_compute. reflexivity. Qed.

(** The end-to-end scenario: rotate page 0, move it to the end, delete the
    page then at index 1. *)
Example demo_scenario :
  session "abc"
    (after "abc" (OpDelete 1)
       (after "abc" (OpMove 0 (Some "2"%string))
          (after "abc" (OpRotate 0) demo_world)))
  = Some ({| doc_pages := [Page 11 90; Page 10 90]; envelope := None |},
          {| filename := "x"; pages := [2; 1] |}).
Proof. vm_compute. reflexivity. Qed.



Lemma delete_removes_page_witness :
  exists d' m' k,
    serve (app.delete io_ok "abc" 1) demo_world
    = (Redirect (app.url_for_edit "abc"), after "abc" (OpDelete 1) demo_world)
    /\ session "abc" (after "abc" (OpDelete 1) demo_world) = Some (d', m')
    /\ page_count d' = page_count demo_doc - 1
    /\ pages demo_meta !! Z.to_nat 1 = Some k
    /\ pages m' = delete (Z.to_nat 1) (pages demo_meta)
    /\ (forall j, (j < Z.to_nat 1)%nat -> pages m' !! j = pages demo_meta !! j)
    /\ (forall j, (Z.to_nat 1 <= j)%nat ->
                  pages m' !! j = pages demo_meta !! S j)
    /\ doc_pages d' = delete (Z.to_nat 1) (doc_pages demo_doc)
    /\ Py.len (pages m') = page_count d'.
Proof.
  apply (delete_removes_page "abc" 1 demo_world demo_doc demo_meta).
  - vm_compute. reflexivity.
  - reflexivity.
  - reflexivity.
  - split; [discriminate|reflexivity].
Defined.

Lemma move_pop_then_insert_witness :
  exists d' m',
    serve (app.move io_ok "abc" 0 (Some "2"%string)) demo_world
    = (Redirect (app.url_for_edit "abc"),
       after "abc" (OpMove 0 (Some "2"%string)) demo_world)
    /\ session "abc" (after "abc" (OpMove 0 (Some "2"%string)) demo_world)
       = Some (d', m')
    /\ Py.insert_pop (doc_pages demo_doc) 0 2 = Ok (doc_pages d')
    /\ Py.insert_pop (pages demo_meta) 0 2 = Ok (pages m')
    /\ doc_pages d' !! Z.to_nat 2 = doc_pages demo_doc !! Z.to_nat 0
    /\ pages m' !! Z.to_nat 2 = pages demo_meta !! Z.to_nat 0
    /\ (forall j,
          doc_pages d' !! j
          = doc_pages demo_doc !! came_from (Z.to_nat 0) (Z.to_nat 2) j)
    /\ (forall j,
          pages m' !! j
          = pages demo_meta !! came_from (Z.to_nat 0) (Z.to_nat 2) j)
    /\ length (doc_pages d') = length (doc_pages demo_doc)
    /\ filename m' = filename demo_meta
    /\ pages m' ≡ₚ pages demo_meta
    /\ exists d'',
         session "abc"
           (after "abc" (OpMove 2 (Some "0"%string))
              (after "abc" (OpMove 0 (Some "2"%string)) demo_world))
         = Some (d'', demo_meta)
         /\ doc_pages d'' = doc_pages demo_doc.
Proof.
  apply (move_pop_then_insert "abc" 0 2 "2" "0" demo_world demo_doc demo_meta).
  - vm_compute. reflexivity.
  - reflexivity.
  - split; [discriminate|reflexivity].
  - split; [discriminate|reflexivity].
  - discriminate.
  - vm_compute. reflexivity.
  - vm_compute. reflexivity.
Defined.

Lemma rotate_quarter_turn_witness :
  exists p d1 d4,
    doc_pages demo_doc !! Z.to_nat 1 = Some p
    /\ serve (app.rotate io_ok "abc" 1) demo_world
       = (Redirect (app.url_for_edit "abc"), after "abc" (OpRotate 1) demo_world)
    /\ session "abc" (after "abc" (OpRotate 1) demo_world) = Some (d1, demo_meta)
    /\ rotation <$> doc_pages d1 !! Z.to_nat 1 = Some ((rotation p + 90) mod 360)
    /\ page_count d1 = page_count demo_doc
    /\ content <$> doc_pages d1 = content <$> doc_pages demo_doc
    /\ (forall j, j <> Z.to_nat 1 -> doc_pages d1 !! j = doc_pages demo_doc !! j)
    /\ session "abc"
         (after "abc" (OpRotate 1) (after "abc" (OpRotate 1)
           (after "abc" (OpRotate 1) (after "abc" (OpRotate 1) demo_world))))
       = Some (d4, demo_meta)
    /\ rotation <$> doc_pages d4 !! Z.to_nat 1 = Some (rotation p)
    /\ content <$> doc_pages d4 = content <$> doc_pages demo_doc
    /\ (forall j, j <> Z.to_nat 1 -> doc_pages d4 !! j = doc_pages demo_doc !! j).
Proof.
  apply (rotate_quarter_turn "abc" 1 demo_world demo_doc demo_meta).
  - vm_compute. reflexivity.
  - split; [discriminate|reflexivity].
Defined.

Lemma violated_preconditions_noop_witness :
  (forall i, ~ (0 <= i < page_count demo_doc) ->
     serve (app.rotate meta_write_fails "abc" i) demo_world
     = (Redirect (app.url_for_edit "abc"), demo_world))
  /\ (forall i, ~ (0 <= i < page_count demo_doc) \/ page_count demo_doc <= 1 ->
        serve (app.delete meta_write_fails "abc" i) demo_world
        = (Redirect (app.url_for_edit "abc"), demo_world))
  /\ (forall f t s, Py.int_of_str s = Ok t ->
        ~ (0 <= f < page_count demo_doc) \/ ~ (0 <= t < page_count demo_doc)
        \/ f = t ->
        serve (app.move meta_write_fails "abc" f (Some s)) demo_world
        = (Redirect (app.url_for_edit "abc"), demo_world)).
Proof.
  apply (violated_preconditions_noop meta_write_fails "abc" demo_world demo_doc).
  vm_compute. reflexivity.
Defined.

(** An index past the end, a target equal to the source. *)
Example noop_examples :
  serve (app.rotate io_ok "abc" 3) demo_world
  = (Redirect "/edit/abc", demo_world)
  /\ serve (app.delete io_ok "abc" 7) demo_world
     = (Redirect "/edit/abc", demo_world)
  /\ serve (app.move io_ok "abc" 1 (Some "1"%string)) demo_world
     = (Redirect "/edit/abc", demo_world)
  /\ serve (app.move io_ok "abc" 1 (Some "-1"%string)) demo_world
     = (Redirect "/edit/abc", demo_world).
Proof. repeat split; vm_compute; reflexivity. Qed.



(** Where the write of the metadata breaks off after the file was opened,
    the ledger is lost: the file is left incomplete, and the listing fails
    on it. *)
Example metadata_write_breaks_off :
  let w' := snd (serve (app.delete meta_write_breaks "abc" 1) demo_world) in
  fst (serve (app.delete meta_write_breaks "abc" 1) demo_world)
  = InternalServerError OSError
  /\ binary "abc" w' = binary "abc" (after "abc" (OpDelete 1) demo_world)
  /\ metadata "abc" w' = Some RawFile
  /\ serve (app.edit "abc") w' = (InternalServerError JSONDecodeError, w').
Proof. cbv zeta. repeat split; vm_compute; reflexivity. Qed.

Lemma missing_session_responses_witness :
  serve (app.edit "abc") empty_dir
  = (Plain "ファイルが見つかりません" 404, empty_dir)
  /\ (forall i, serve (app.rotate io_ok "abc" i) empty_dir
                = (InternalServerError FileNotFoundError, empty_dir))
  /\ (forall i, serve (app.delete io_ok "abc" i) empty_dir
                = (InternalServerError FileNotFoundError, empty_dir))
  /\ (forall f form t, target f form = Ok t ->
        serve (app.move io_ok "abc" f form) empty_dir
        = (InternalServerError FileNotFoundError, empty_dir)).
Proof.
  apply (missing_session_responses io_ok "abc" empty_dir).
  vm_compute. reflexivity.
Defined.

Lemma persistence_by_operation_kind_witness :
  log (after "abc" (OpRotate 1) demo_world)
  = log demo_world ++ [EvSave "uploads/abc.pdf" incremental_save]
  /\ binary "abc" (after "abc" (OpRotate 1) demo_world)
     = Some (PdfFile {| doc_pages := [Page 10 0; Page 11 180; Page 12 0];
                        envelope := Some 7%N |})
  /\ binary "abc" (after "abc" (OpDelete 1) demo_world)
     = Some (PdfFile {| doc_pages := [Page 10 0; Page 12 0];
                        envelope := None |})
  /\ fs (after "abc" (OpDelete 1) demo_world) !! tmp_path "abc" = None
  /\ binary "abc" (snd (serve (run replace_fails "abc" (OpDelete 1)) demo_world))
     = Some (PdfFile demo_doc)
  /\ fs (snd (serve (run replace_fails "abc" (OpDelete 1)) demo_world))
       !! tmp_path "abc"
     = Some (PdfFile {| doc_pages := [Page 10 0; Page 12 0];
                        envelope := None |})
  /\ binary "abc" (after "abc" (OpMove 0 (Some "2"%string)) demo_world)
     = Some (PdfFile {| doc_pages := [Page 11 90; Page 12 0; Page 10 0];
                        envelope := None |}).
Proof.
  destruct (persistence_by_operation_kind "abc" demo_world demo_doc demo_meta)
    as (Hlog & Hrot & Hfull).
  - vm_compute. reflexivity.
  - reflexivity.
  - destruct (Hrot 1 (Page 11 90)) as (_ & _ & _ & Hb & _);
      [split; [discriminate|reflexivity]|reflexivity|].
    destruct (Hfull (OpDelete 1)
                (with_pages demo_doc
                   (delete (Z.to_nat 1) (doc_pages demo_doc))))
      as (_ & _ & Hd & Ht & Hr & _).
    { split; [split; [discriminate|reflexivity]|].
      split; reflexivity. }
    destruct (Hr replace_fails) as (Hrb & Hrt & _);
      [reflexivity|reflexivity|].
    destruct (Hfull (OpMove 0 (Some "2"%string))
                (with_pages demo_doc
                   (lmove (Z.to_nat 0) (Z.to_nat 2) (doc_pages demo_doc))))
      as (_ & _ & Hm & _).
    { exists 2. split; [vm_compute; reflexivity|].
      split; [split; [discriminate|reflexivity]|].
      split; [split; [discriminate|reflexivity]|].
      split; [discriminate|reflexivity]. }
    split; [exact (proj1 (Hlog (OpRotate 1)))|].
    split; [exact Hb|]. split; [exact Hd|]. split; [exact Ht|].
    split; [exact Hrb|]. split; [exact Hrt|]. exact Hm.
Defined.

(** The writes of the three kinds on the demo session, and the envelope a
    rotation keeps. *)
Example demo_writes :
  log (after "abc" (OpRotate 0) demo_world)
  = log demo_world ++ [EvSave "uploads/abc.pdf" incremental_save]
  /\ (envelope <$> (fst <$> session "abc" (after "abc" (OpRotate 0) demo_world)))
     = Some (Some 7%N)
  /\ log (after "abc" (OpDelete 0) demo_world)
     = log demo_world ++ [EvSave "uploads/abc.pdf.tmp" full_rewrite;
                          EvReplace "uploads/abc.pdf.tmp" "uploads/abc.pdf";
                          EvWriteMeta "uploads/abc.json"]
  /\ log (after "abc" (OpMove 0 (Some "1"%string)) demo_world)
     = log demo_world ++ [EvSave "uploads/abc.pdf.tmp" full_rewrite;
                          EvReplace "uploads/abc.pdf.tmp" "uploads/abc.pdf";
                          EvWriteMeta "uploads/abc.json"].
Proof. repeat split; vm_compute; reflexivity. Qed.

(** What [int] reads and what it refuses: white space around, a sign,
    single underscores, the digits of other scripts (here the full-width
    two, U+FF12, in UTF-8); not the separators 28 to 31, not an empty
    string, not a fraction, not more than 4300 digits. *)
Example int_of_str_examples :
  Py.int_of_str "2" = Ok 2
  /\ Py.int_of_str " +1_0 " = Ok 10
  /\ Py.int_of_str "-7" = Ok (-7)
  /\ Py.int_of_str
       (String (ascii_of_nat 239)
          (String (ascii_of_nat 188) (String (ascii_of_nat 146) "")))
     = Ok 2
  /\ Py.int_of_str (String (ascii_of_nat 28) "2") = Raise ValueError
  /\ Py.int_of_str "" = Raise ValueError
  /\ Py.int_of_str "1__0" = Raise ValueError
  /\ Py.int_of_str "2.0" = Raise ValueError
  /\ Py.int_of_str "abc" = Raise ValueError
  /\ (exists z,
        Py.int_of_str (string_of_list_ascii (repeat "1"%char 4300)) = Ok z)
  /\ Py.int_of_str (string_of_list_ascii (repeat "1"%char 4301))
     = Raise ValueError.
Proof.
  do 9 (split; [vm_compute; reflexivity|]).
  split; [eexists; vm_compute; reflexivity|].
  vm_compute. reflexivity.
Qed.

(** C9, against the claim: a ["to"] field that is no integer does not fall
    back on the source index; the request ends in the [ValueError], where
    the request without the field is answered by the redirect. *)
Lemma malformed_target_is_an_error :
  Py.int_of_str "abc" = Raise ValueError
  /\ serve (app.move io_ok "abc" 0 (Some "abc"%string)) demo_world
     = (InternalServerError ValueError, demo_world)
  /\ serve (app.move io_ok "abc" 0 None) demo_world
     = (Redirect "/edit/abc", demo_world)
  /\ serve (app.move io_ok "abc" 0 (Some "abc"%string)) demo_world
     <> serve (app.move io_ok "abc" 0 None) demo_world.
Proof.
  split; [vm_compute; reflexivity|].
  split; [vm_compute; reflexivity|].
  split; [vm_compute; reflexivity|].
  intros H. apply (f_equal fst) in H. vm_compute in H. discriminate H.
Qed.

Lemma move_target_absent_or_malformed_witness :
  serve (app.move io_ok "abc" 1 None) demo_world
  = (Redirect (app.url_for_edit "abc"), demo_world)
  /\ (forall s e, Py.int_of_str s = Raise e ->
        serve (app.move io_ok "abc" 1 (Some s)) demo_world
        = (InternalServerError e, demo_world)).
Proof.
  apply (move_target_absent_or_malformed io_ok "abc" 1 demo_world demo_doc).
  vm_compute. reflexivity.
Defined.

Lemma missing_metadata_is_synthesized_witness :
  let m0 := synthesized (page_count demo_doc) in
  app._load_meta "abc" (page_count demo_doc) bare_world = (Ok m0, bare_world)
  /\ filename m0 = "unknown.pdf"%string
  /\ (forall k, k ∈ pages m0 <-> 1 <= k <= page_count demo_doc)
  /\ (forall j, (j < length (doc_pages demo_doc))%nat ->
                pages m0 !! j = Some (Z.of_nat j + 1))
  /\ Py.len (pages m0) = page_count demo_doc
  /\ session "abc" bare_world = Some (demo_doc, m0)
  /\ serve (app.edit "abc") bare_world
     = (Rendered "abc" "unknown.pdf.pdf" (page_count demo_doc)
          (rows demo_doc (pages m0)), bare_world)
  /\ (forall i, exists d',
        session "abc" (after "abc" (OpRotate i) bare_world) = Some (d', m0))
  /\ (forall i, delete_guard demo_doc i = true ->
        exists d', stored "abc" (after "abc" (OpDelete i) bare_world) d'
                     {| filename := "unknown.pdf";
                        pages := delete (Z.to_nat i) (pages m0) |})
  /\ (forall f form t, target f form = Ok t -> move_guard demo_doc f t = true ->
        exists d', stored "abc" (after "abc" (OpMove f form) bare_world) d'
                     {| filename := "unknown.pdf";
                        pages := lmove (Z.to_nat f) (Z.to_nat t) (pages m0) |}).
Proof.
  apply (missing_metadata_is_synthesized "abc" bare_world demo_doc).
  - vm_compute. reflexivity.
  - vm_compute. reflexivity.
Defined.

(** The listing and a deletion on the session without metadata. *)
Example bare_examples :
  serve (app.edit "abc") bare_world
  = (Rendered "abc" "unknown.pdf.pdf" 3 [("p.1", 0); ("p.2", 90); ("p.3", 0)]%string,
     bare_world)
  /\ metadata "abc" (after "abc" (OpDelete 0) bare_world)
     = Some (JsonFile {| filename := "unknown.pdf"; pages := [2; 3] |}).
Proof. split; vm_compute; reflexivity. Qed.

(** ** The listing *)

Lemma getitem_out_of_range {A} (l : list A) (i : Z) :
  Py.len l <= i -> Py.getitem l i = Raise IndexError.
Proof.
  intros Hi. unfold Py.getitem, Py.from_end.
  pose proof (len_nonneg l).
  destruct (Z.ltb_spec i 0); [lia|].
  destruct (Z.ltb_spec i (Py.len l)); [lia|].
  now rewrite andb_false_r.
Qed.

Lemma rmap_first_raise {A B} (g : A -> result B) l1 x l2 e :
  Forall (fun a => exists b, g a = Ok b) l1 ->
  g x = Raise e ->
  rmap g (l1 ++ x :: l2) = Raise e.
Proof.
  intros Hl Hx. induction Hl as [|a l1 [b Hb] _ IH]; simpl.
  - now rewrite Hx.
  - rewrite Hb. simpl. now rewrite IH.
Qed.

Lemma load_page_in_range d (i : nat) p :
  doc_pages d !! i = Some p -> load_page d (Z.of_nat i) = Ok p.
Proof.
  intros Hp. unfold load_page, wrap.
  destruct (Z.ltb_spec (Z.of_nat i) 0); [lia|].
  apply getitem_in_range; [lia|]. now rewrite Nat2Z.id.
Qed.

(** The rows of a ledger at least as long as the document. *)
Lemma get_page_info_rows_le d ledger :
  (length (doc_pages d) <= length ledger)%nat ->
  app._get_page_info d ledger = Ok (rows d ledger).
Proof.
  intros Hlen. unfold app._get_page_info, rows.
  apply rmap_Forall2. apply Forall2_same_length_lookup_2.
  - rewrite range_length, length_zip_with_l by lia.
    rewrite page_count_length. lia.
  - intros i x row Hx Hrow.
    apply lookup_zip_with_Some in Hrow as (p & k & -> & Hp & Hk).
    apply lookup_lt_Some in Hp as Hlt.
    rewrite range_lookup in Hx by (rewrite page_count_length; lia).
    injection Hx as <-.
    rewrite (load_page_in_range d i p Hp). cbn [rbind].
    rewrite (getitem_in_range ledger _ k) by (rewrite ?Nat2Z.id; done || lia).
    done.
Qed.

(** A ledger shorter than the document stops the listing at its end. *)
Lemma get_page_info_short d ledger :
  (length ledger < length (doc_pages d))%nat ->
  app._get_page_info d ledger = Raise IndexError.
Proof.
  intros Hlen. unfold app._get_page_info.
  set (k := length ledger).
  assert (Py.range 0 (page_count d) !! k = Some (Z.of_nat k)) as Hk
    by (apply range_lookup; rewrite page_count_length; lia).
  rewrite <- (take_drop_middle _ k _ Hk).
  apply rmap_first_raise.
  - apply Forall_lookup. intros i x Hx.
    apply lookup_take_Some in Hx as [Hx Hi].
    rewrite range_lookup in Hx by (rewrite page_count_length; lia).
    injection Hx as <-.
    destruct (lookup_lt_is_Some_2 (doc_pages d) i) as [p Hp]; [lia|].
    destruct (lookup_lt_is_Some_2 ledger i) as [n Hn]; [lia|].
    rewrite (load_page_in_range d i p Hp). cbn [rbind].
    rewrite (getitem_in_range ledger _ n) by (rewrite ?Nat2Z.id; done || lia).
    eauto.
  - destruct (lookup_lt_is_Some_2 (doc_pages d) k) as [p Hp]; [lia|].
    rewrite (load_page_in_range d k p Hp). cbn [rbind].
    rewrite getitem_out_of_range by (unfold Py.len; lia). done.
Qed.

Lemma edit_on_session fid w d m :
  session fid w = Some (d, m) ->
  app.edit fid w =
    (rbind (app._get_page_info d (pages m)) (fun page_info =>
       Ok (Rendered fid (filename m +:+ ".pdf") (Py.len page_info) page_info)),
     w).
Proof.
  intros Hs. apply session_inv_parts in Hs as [Hd Hload].
  unfold app.edit. unfold bind at 1. unfold app.os_path_exists.
  rewrite Hd. cbn [negb]. unfold bind at 1. unfold app.fitz_open. rewrite Hd.
  unfold bind at 1. rewrite load_meta_run, Hload.
  unfold bind, lift, ret. now destruct (app._get_page_info d (pages m)).
Qed.

Lemma rows_length d ledger :
  (length (doc_pages d) <= length ledger)%nat ->
  Py.len (rows d ledger) = page_count d.
Proof.
  intros H. unfold Py.len, rows, page_count, Py.len.
  now rewrite length_zip_with_l by lia.
Qed.

(** X1: [edit] writes nothing: whatever the directory holds and
    whatever it answers, the world after it is the world before it. *)
Theorem edit_changes_nothing fid w : snd (serve (app.edit fid) w) = w.
Proof.
  rewrite serve_snd. unfold app.edit. unfold bind at 1.
  unfold app.os_path_exists.
  destruct (fs w !! app._pdf_path fid) as [f|] eqn:Hf; [|done]. cbn [negb].
  unfold bind at 1. unfold app.fitz_open. rewrite Hf.
  destruct f as [d| |]; try done.
  unfold bind at 1. rewrite load_meta_run.
  destruct (loaded_meta fid (page_count d) (fs w)); [|done].
  unfold bind, lift. now destruct (app._get_page_info d (pages a)).
Qed.

(** X2: on a session whose ledger is at least as long as the document,
    [edit] answers with the listing: the file name with [".pdf"] added,
    the page count, and one row per page, in page order, that shows
    ["p."] followed by the ledger entry at that position and the page's
    rotation.  Ledger entries past the last page are not shown. *)
Theorem edit_lists_every_page fid w d m :
  session fid w = Some (d, m) ->
  (length (doc_pages d) <= length (pages m))%nat ->
  serve (app.edit fid) w
  = (Rendered fid (filename m +:+ ".pdf") (page_count d) (rows d (pages m)), w)
  /\ Py.len (rows d (pages m)) = page_count d
  /\ (forall i p, doc_pages d !! i = Some p ->
        exists k, pages m !! i = Some k
                  /\ rows d (pages m) !! i = Some ("p." +:+ pretty k, rotation p)).
Proof.
  intros Hs Hlen. split; [|split].
  - unfold serve. rewrite (edit_on_session fid w d m Hs).
    rewrite (get_page_info_rows_le d (pages m) Hlen). cbn [rbind].
    now rewrite rows_length.
  - now apply rows_length.
  - intros i p Hp. apply lookup_lt_Some in Hp as Hlt.
    destruct (lookup_lt_is_Some_2 (pages m) i) as [k Hk]; [lia|].
    exists k. split; [done|]. unfold rows.
    rewrite lookup_zip_with, Hp. cbn. now rewrite Hk.
Qed.

(** X3: on a session whose ledger is shorter than the document, [edit]
    fails: the [IndexError] of the ledger lookup leaves the handler, the
    request is answered with status 500, and nothing is written. *)
Theorem edit_short_ledger_fails fid w d m :
  session fid w = Some (d, m) ->
  (length (pages m) < length (doc_pages d))%nat ->
  serve (app.edit fid) w = (InternalServerError IndexError, w).
Proof.
  intros Hs Hlen. unfold serve. rewrite (edit_on_session fid w d m Hs).
  now rewrite (get_page_info_short d (pages m) Hlen).
Qed.

(** ** Sessions in use *)

Lemma stored_functional fid w d m d' m' :
  stored fid w d m -> stored fid w d' m' -> d = d' /\ m = m'.
Proof. intros [H1 H2] [H3 H4]. split; congruence. Qed.

(** One edit operation on a session that keeps the invariant: the
    invariant stays, the page count stays or, after a deletion that
    leaves a page, drops by one, and a readable request is answered by
    the redirect. *)
Lemma step_report fid d0 op w d m :
  stored fid w d m -> session_ok d0 d m ->
  exists d' m',
    stored fid (after fid op w) d' m'
    /\ session_ok d0 d' m'
    /\ (page_count d' = page_count d
        \/ (1 < page_count d /\ page_count d' = page_count d - 1))
    /\ (readable op ->
        fst (serve (run io_ok fid op) w) = Redirect (app.url_for_edit fid)).
Proof.
  intros Hst Hok. pose proof Hst as [Hd Hm].
  assert (loaded_meta fid (page_count d) (fs w) = Ok m) as Hload
    by (unfold loaded_meta; now rewrite Hm).
  pose proof (ok_length _ _ _ Hok) as Hlen.
  unfold page_count, Py.len in Hlen.
  unfold after, run, serve. destruct op as [i | i | f form].
  - destruct (rotate_guard d i) eqn:Hg.
    + apply rotate_guard_range in Hg as Hi.
      destruct (page_in_range d i Hi) as [p Hp].
      rewrite (rotate_run fid i w d p Hd Hg Hp). cbn [fst snd].
      eexists _, m. split; [|split; [exact (session_ok_rotate d0 d m _ p Hok Hp)|]].
      * split; cbn [fs]; [apply lookup_insert_eq|].
        now rewrite lookup_insert_ne by apply pdf_ne_meta.
      * split; [|done]. left. unfold page_count, Py.len.
        cbn [doc_pages with_pages]. now rewrite length_insert.
    + rewrite (rotate_skip io_ok fid i w d Hd Hg). cbn [fst snd].
      exists d, m. auto.
  - destruct (delete_guard d i) eqn:Hg.
    + pose proof (proj1 (delete_guard_range d i) Hg) as [Hi Hn].
      destruct (page_in_range d i Hi) as [p Hp].
      rewrite page_count_length in Hi.
      destruct (lookup_lt_is_Some_2 (pages m) (Z.to_nat i)) as [k Hk]; [lia|].
      pose proof (pop_in_range (pages m) i k (proj1 Hi) Hk) as Hpop.
      rewrite <- delete_take_drop in Hpop.
      rewrite (delete_run fid i w d p m k _ Hd Hg Hp Hload Hpop). cbn [fst snd].
      eexists _, _. split; [apply stored_rewritten|].
      split; [apply session_ok_written; now apply session_ok_delete|].
      split; [|done]. right. split; [done|].
      unfold page_count, Py.len.
      cbn [doc_pages with_pages written full_rewrite encryption].
      rewrite length_delete by eauto. lia.
    + rewrite (delete_skip io_ok fid i w d Hd Hg). cbn [fst snd].
      exists d, m. auto.
  - destruct (target f form) as [t|e] eqn:Hparse.
    + destruct (move_guard d f t) eqn:Hg.
      * apply move_guard_iff in Hg as Hr.
        rewrite page_count_length in Hr.
        assert (Py.insert_pop (pages m) f t
                = Ok (lmove (Z.to_nat f) (Z.to_nat t) (pages m))) as Hps
          by (apply insert_pop_in_range; unfold Py.len; lia).
        rewrite (move_run fid f t form w d m _ Hd Hparse Hg Hload Hps).
        cbn [fst snd]. eexists _, _. split; [apply stored_rewritten|].
        split; [apply session_ok_written; now apply session_ok_move|].
        split; [|done]. left. unfold page_count, Py.len.
        cbn [doc_pages with_pages written full_rewrite encryption].
        now rewrite lmove_length.
      * rewrite (move_skip io_ok fid f t form w d Hd Hparse Hg). cbn [fst snd].
        exists d, m. auto.
    + unfold app.move. unfold bind at 1. unfold lift at 1.
      unfold target in Hparse. rewrite Hparse. cbn [fst snd].
      exists d, m. split; [done|]. split; [done|]. split; [auto|].
      intros [t Ht]. unfold target in Ht. congruence.
Qed.

(** What every reachable world holds. *)
Lemma reachable_report fid d0 w :
  reachable fid d0 w ->
  exists d m,
    stored fid w d m /\ session_ok d0 d m
    /\ page_count d <= page_count d0
    /\ (1 <= page_count d0 -> 1 <= page_count d).
Proof.
  induction 1 as [w name Hname | w op _ (d & m & Hst & Hok & Hle & Hge)].
  - unfold serve. rewrite (upload_run fid name d0 w Hname). cbn [snd].
    eexists d0, _. split; [|split; [apply session_ok_upload|lia]].
    split; cbn [fs]; [|apply lookup_insert_eq].
    rewrite lookup_insert_ne by (apply not_eq_sym, pdf_ne_meta).
    apply lookup_insert_eq.
  - destruct (step_report fid d0 op w d m Hst Hok) as (d' & m' & ? & ? & Hpc & _).
    exists d', m'. split; [done|]. split; [done|]. lia.
Qed.

(** X5: a session never grows and never loses its last page: in every
    world reached from the upload of a document of [N] pages the stored
    document has at most [N] pages, and at least one if [N] is at least
    one. *)
Theorem page_count_stays_within_bounds fid d0 w :
  reachable fid d0 w ->
  exists d m,
    stored fid w d m
    /\ page_count d <= page_count d0
    /\ (1 <= page_count d0 -> 1 <= page_count d).
Proof.
  intros Hreach.
  destruct (reachable_report fid d0 w Hreach) as (d & m & Hst & _ & Hle & Hge).
  eauto.
Qed.

(** ** Paths *)

Lemma app_not_empty (a b : string) : b <> EmptyString -> a +:+ b <> EmptyString.
Proof. destruct a; [done|]. intros _. discriminate. Qed.

Lemma last_char_app (a b : string) :
  b <> EmptyString -> last_char (a +:+ b) = last_char b.
Proof.
  intros Hb. induction a as [|c a IH]; [done|].
  change (String c a +:+ b) with (String c (a +:+ b)).
  pose proof (app_not_empty a b Hb) as Hne.
  simpl. destruct (a +:+ b); [done|]. exact IH.
Qed.

Lemma app_cancel_r (a b s : string) : a +:+ s = b +:+ s -> a = b.
Proof.
  revert b. induction a as [|c a IH]; intros [|c' b] H.
  - done.
  - apply (f_equal String.length) in H.
    rewrite !string_length_app in H. cbn [String.length] in H. lia.
  - apply (f_equal String.length) in H.
    rewrite !string_length_app in H. cbn [String.length] in H. lia.
  - injection H as -> H. f_equal. now apply IH.
Qed.

Lemma pdf_path_last fid : last_char (app._pdf_path fid) = Some "f"%char.
Proof.
  unfold app._pdf_path, app.os_path_join, app.UPLOAD_DIR.
  rewrite !last_char_app; try done.
  all: repeat apply app_not_empty; done.
Qed.

Lemma meta_path_last fid : last_char (app._meta_path fid) = Some "n"%char.
Proof.
  unfold app._meta_path, app.os_path_join, app.UPLOAD_DIR.
  rewrite !last_char_app; try done.
  all: repeat apply app_not_empty; done.
Qed.

Lemma tmp_path_last fid : last_char (tmp_path fid) = Some "p"%char.
Proof. unfold tmp_path. now rewrite last_char_app. Qed.

Lemma pdf_path_inj fid fid' : app._pdf_path fid = app._pdf_path fid' -> fid = fid'.
Proof.
  unfold app._pdf_path, app.os_path_join.
  intros H. do 2 apply (inj (String.app _)) in H. now apply app_cancel_r in H.
Qed.

Lemma meta_path_inj fid fid' :
  app._meta_path fid = app._meta_path fid' -> fid = fid'.
Proof.
  unfold app._meta_path, app.os_path_join.
  intros H. do 2 apply (inj (String.app _)) in H. now apply app_cancel_r in H.
Qed.

(** The artifacts of another session are none of the paths of this one. *)
Lemma other_session_paths fid fid' :
  fid <> fid' ->
  (app._pdf_path fid' ∉ session_paths fid)
  /\ (app._meta_path fid' ∉ session_paths fid).
Proof.
  intros Hne. unfold session_paths. rewrite !not_elem_of_cons. split.
  - split; [intros H; apply pdf_path_inj in H; congruence|].
    split; [intros H; apply (f_equal last_char) in H;
            now rewrite pdf_path_last, tmp_path_last in H|].
    split; [intros H; apply (f_equal last_char) in H;
            now rewrite pdf_path_last, meta_path_last in H|].
    apply not_elem_of_nil.
  - split; [intros H; apply (f_equal last_char) in H;
            now rewrite pdf_path_last, meta_path_last in H|].
    split; [intros H; apply (f_equal last_char) in H;
            now rewrite meta_path_last, tmp_path_last in H|].
    split; [intros H; apply meta_path_inj in H; congruence|].
    apply not_elem_of_nil.
Qed.

(** ** Footprints *)

Lemma changes_only_refl paths w : changes_only paths w w.
Proof. now intros p _. Qed.

Lemma changes_only_weaken paths paths' w w' :
  paths ⊆ paths' -> changes_only paths w w' -> changes_only paths' w w'.
Proof. intros Hsub H p Hp. apply H. intros Hin. apply Hp, Hsub, Hin. Qed.

Ltac footprint :=
  let p := fresh "p" in
  let Hp := fresh "Hp" in
  intros p Hp; unfold session_paths in Hp;
  rewrite ?not_elem_of_cons in Hp; cbn [fs snd];
  rewrite ?lookup_insert_ne, ?lookup_delete_ne by (intros ?; subst; intuition congruence);
  reflexivity.

(** The world [rotate] leaves, by cases on what it meets. *)
Lemma rotate_world io fid i w :
  snd (app.rotate io fid i w) =
  match fs w !! app._pdf_path fid with
  | Some (PdfFile d) =>
      if rotate_guard d i then
        match load_page d i with
        | Ok p =>
            if io AtSave then
              {| fs := <[app._pdf_path fid :=
                           PdfFile (with_pages d
                                      (<[Z.to_nat i := rotated p]> (doc_pages d)))]>
                         (fs w);
                 log := log w ++ [EvSave (app._pdf_path fid) incremental_save] |}
            else if io (BeforeWriting AtSave) then w
            else {| fs := <[app._pdf_path fid := RawFile]> (fs w);
                    log := log w |}
        | Raise _ => w
        end
      else w
  | _ => w
  end.
Proof.
  unfold app.rotate. unfold bind at 1. unfold app.fitz_open.
  destruct (fs w !! app._pdf_path fid) as [[d| |]|]; try done.
  rewrite snd_bind_ret. fold (rotate_guard d i).
  destruct (rotate_guard d i); [|done].
  destruct (load_page d i) as [p|]; [|done].
  rewrite bind_lift_ok. unfold app.doc_save, app.write_file.
  destruct (io AtSave); [done|]. now destruct (io (BeforeWriting AtSave)).
Qed.

Lemma rotate_footprint io fid i w :
  changes_only [app._pdf_path fid] w (snd (app.rotate io fid i w)).
Proof.
  rewrite rotate_world.
  destruct (fs w !! app._pdf_path fid) as [[d| |]|];
    [|apply changes_only_refl ..].
  destruct (rotate_guard d i); [|apply changes_only_refl].
  destruct (load_page d i); [|apply changes_only_refl].
  destruct (io AtSave); [footprint|].
  destruct (io (BeforeWriting AtSave)); [apply changes_only_refl|footprint].
Qed.

Lemma full_rewrite_footprint io fid n d' new_meta w :
  changes_only (session_paths fid) w
    (snd (full_rewrite_then io fid n d' new_meta w)).
Proof.
  rewrite full_rewrite_world. cbv zeta.
  destruct (io AtSave), (io AtReplace), (io (BeforeWriting AtSave)),
    (loaded_meta fid n (fs w)) as [m|e]; try destruct (new_meta m) as [m'|e'];
    try destruct (io AtWriteMeta); try destruct (io (BeforeWriting AtWriteMeta));
    try apply changes_only_refl; footprint.
Qed.

Lemma run_footprint io fid op w :
  changes_only (session_paths fid) w (snd (serve (run io fid op) w)).
Proof.
  rewrite serve_snd. destruct op as [i | i | f form]; cbn [run].
  - apply (changes_only_weaken [app._pdf_path fid]);
      [|apply rotate_footprint].
    unfold session_paths. intros x Hx.
    apply list_elem_of_singleton in Hx as ->. constructor.
  - rewrite delete_world.
    destruct (fs w !! app._pdf_path fid) as [[d| |]|];
      [|apply changes_only_refl ..].
    destruct (delete_guard d i); [|apply changes_only_refl].
    destruct (delete_page d i); [|apply changes_only_refl].
    apply full_rewrite_footprint.
  - rewrite move_world.
    destruct (target f form) as [t|]; [|apply changes_only_refl].
    destruct (fs w !! app._pdf_path fid) as [[d| |]|];
      [|apply changes_only_refl ..].
    destruct (move_guard d f t); [|apply changes_only_refl].
    destruct (Py.insert_pop _ f t) as [order|]; [|apply changes_only_refl].
    destruct (select d order); [|apply changes_only_refl].
    apply full_rewrite_footprint.
Qed.

(** The world [upload] leaves, by cases on what it meets. *)
Lemma upload_footprint io fid f w :
  changes_only [app._pdf_path fid; app._meta_path fid] w
    (snd (serve (app.upload io fid f) w)).
Proof.
  rewrite serve_snd. unfold app.upload.
  destruct f as [[name content]|]; [|apply changes_only_refl].
  cbn [app.up_filename app.up_content].
  destruct (negb (name =? "")%string && Py.endswith (Py.lower name) ".pdf");
    [|apply changes_only_refl].
  unfold bind at 1. unfold app.write_file.
  destruct (io AtUpload);
    [|destruct (io (BeforeWriting AtUpload));
      [apply changes_only_refl|footprint]].
  unfold bind at 1. unfold app.fitz_open. cbn [fs log].
  rewrite lookup_insert_eq.
  destruct content as [d| |]; try footprint.
  unfold bind, app._save_meta, app.write_file, ret. cbn [fs log].
  destruct (io AtWriteMeta); [footprint|].
  destruct (io (BeforeWriting AtWriteMeta)); footprint.
Qed.

(** What the cleanup leaves; no exception leaves it. *)
Lemma cleanup_run rm path meta_path w :
  app._cleanup rm path meta_path w =
  (Ok tt,
   if rm path then
     match fs w !! path with
     | Some _ =>
         let files := base.delete path (fs w) in
         match files !! meta_path with
         | Some _ =>
             if rm meta_path
             then {| fs := base.delete meta_path files; log := log w |}
             else {| fs := files; log := log w |}
         | None => {| fs := files; log := log w |}
         end
     | None => w
     end
   else w).
Proof.
  unfold app._cleanup, app.except_OSError_pass.
  unfold bind at 1. unfold app.os_remove at 1.
  destruct (rm path); [|done].
  destruct (fs w !! path); [|done].
  unfold bind at 1. unfold app.os_path_exists. cbn [fs log]. cbv zeta.
  destruct (base.delete path (fs w) !! meta_path) eqn:Hm; [|done].
  unfold app.os_remove. cbn [fs log]. rewrite Hm.
  now destruct (rm meta_path).
Qed.

Lemma cleanup_footprint rm fid w :
  changes_only [app._pdf_path fid; app._meta_path fid] w
    (snd (app._cleanup rm (app._pdf_path fid) (app._meta_path fid) w)).
Proof.
  rewrite cleanup_run. cbn [snd]. cbv zeta.
  destruct (rm (app._pdf_path fid)); [|apply changes_only_refl].
  destruct (fs w !! app._pdf_path fid); [|apply changes_only_refl].
  destruct (base.delete (app._pdf_path fid) (fs w) !! app._meta_path fid);
    [|footprint].
  destruct (rm (app._meta_path fid)); footprint.
Qed.

(** What [download] answers and leaves, by cases on what it meets. *)
Lemma download_run rm fid w :
  serve_download (app.download rm fid) w =
  match fs w !! app._pdf_path fid with
  | Some f =>
      match loaded_meta fid 0 (fs w) with
      | Ok m =>
          (SendFile f (filename m +:+ "_edited.pdf"),
           snd (app._cleanup rm (app._pdf_path fid) (app._meta_path fid) w))
      | Raise e => (Answer (InternalServerError e), w)
      end
  | None => (Answer (Plain "ファイルが見つかりません" 404), w)
  end.
Proof.
  unfold serve_download, app.download. unfold bind at 1.
  unfold app.os_path_exists.
  destruct (fs w !! app._pdf_path fid) as [f|] eqn:Hf; [|done].
  cbn [negb]. unfold bind at 1. rewrite load_meta_run.
  destruct (loaded_meta fid 0 (fs w)) as [m|]; [|done].
  unfold bind at 1. unfold app.send_file. rewrite Hf.
  unfold bind. rewrite cleanup_run. done.
Qed.

Lemma download_world rm fid w :
  snd (serve_download (app.download rm fid) w) = w
  \/ snd (serve_download (app.download rm fid) w)
     = snd (app._cleanup rm (app._pdf_path fid) (app._meta_path fid) w).
Proof.
  rewrite download_run.
  destruct (fs w !! app._pdf_path fid) as [f|]; [|now left].
  destruct (loaded_meta fid 0 (fs w)) as [m|]; [now right|now left].
Qed.

Lemma download_footprint rm fid w :
  changes_only [app._pdf_path fid; app._meta_path fid] w
    (snd (serve_download (app.download rm fid) w)).
Proof.
  destruct (download_world rm fid w) as [-> | ->];
    [apply changes_only_refl|apply cleanup_footprint].
Qed.

(** X6: an edit request for [fid] changes no file but the three of its
    session (the binary, its temporary file, the metadata), and a
    [rotate] none but the binary; this holds for every directory, every
    argument and whichever writes fail. *)
Theorem edit_requests_stay_in_their_session io fid op w :
  (forall p, p ∉ session_paths fid ->
     fs (snd (serve (run io fid op) w)) !! p = fs w !! p)
  /\ (forall i p, p <> app._pdf_path fid ->
        fs (snd (serve (app.rotate io fid i) w)) !! p = fs w !! p).
Proof.
  split.
  - apply run_footprint.
  - intros i p Hp. rewrite serve_snd. apply rotate_footprint.
    rewrite not_elem_of_cons. split; [done|apply not_elem_of_nil].
Qed.

(** X7: sessions do not touch each other: whatever a request for [fid]
    does (an edit operation, an upload, a download), with whichever
    writes and removals failing, the binary and the metadata of every
    other identifier are what they were. *)
Theorem other_sessions_untouched io rm fid fid' w :
  fid <> fid' ->
  (forall op,
     binary fid' (snd (serve (run io fid op) w)) = binary fid' w
     /\ metadata fid' (snd (serve (run io fid op) w)) = metadata fid' w)
  /\ (forall f,
        binary fid' (snd (serve (app.upload io fid f) w)) = binary fid' w
        /\ metadata fid' (snd (serve (app.upload io fid f) w)) = metadata fid' w)
  /\ binary fid' (snd (serve_download (app.download rm fid) w)) = binary fid' w
  /\ metadata fid' (snd (serve_download (app.download rm fid) w))
     = metadata fid' w.
Proof.
  intros Hne. destruct (other_session_paths fid fid' Hne) as [Hpdf Hmeta].
  assert ((app._pdf_path fid' ∉ [app._pdf_path fid; app._meta_path fid])
          /\ (app._meta_path fid' ∉ [app._pdf_path fid; app._meta_path fid]))
    as [Hpdf2 Hmeta2].
  { unfold session_paths in *. rewrite !not_elem_of_cons in *. tauto. }
  unfold binary, metadata. split; [|split; [|split]].
  - intros op. split; now apply run_footprint.
  - intros f. split; now apply upload_footprint.
  - now apply download_footprint.
  - now apply download_footprint.
Qed.

(** ** Download *)

(** X8: where the binary is stored and the metadata can be loaded (or is
    missing, when the file name is ["unknown.pdf"]), [download] answers
    with the stored binary under the name [<filename>_edited.pdf]; with
    the removals succeeding, both artifacts are gone afterwards and no
    other file has changed, so that [edit] and a second [download] answer
    "not found" with status 404. *)
Theorem download_sends_then_destroys fid w f m :
  fs w !! app._pdf_path fid = Some f ->
  loaded_meta fid 0 (fs w) = Ok m ->
  let w' := snd (serve_download (app.download rm_ok fid) w) in
  fst (serve_download (app.download rm_ok fid) w)
  = SendFile f (filename m +:+ "_edited.pdf")
  /\ binary fid w' = None
  /\ metadata fid w' = None
  /\ (forall p, p <> app._pdf_path fid -> p <> app._meta_path fid ->
        fs w' !! p = fs w !! p)
  /\ log w' = log w
  /\ serve (app.edit fid) w' = (Plain "ファイルが見つかりません" 404, w')
  /\ serve_download (app.download rm_ok fid) w'
     = (Answer (Plain "ファイルが見つかりません" 404), w').
Proof.
  intros Hf Hm. cbv zeta. rewrite download_run, Hf, Hm. cbn [fst snd].
  rewrite cleanup_run. cbn [snd]. unfold rm_ok. rewrite Hf. cbv zeta.
  set (w' := match base.delete (app._pdf_path fid) (fs w) !! app._meta_path fid with
             | Some _ => _ | None => _ end).
  assert (fs w' !! app._pdf_path fid = None) as Hpdf.
  { subst w'. destruct (base.delete _ _ !! _); cbn [fs].
    - rewrite lookup_delete_ne by (apply not_eq_sym, pdf_ne_meta).
      apply lookup_delete_eq.
    - apply lookup_delete_eq. }
  assert (fs w' !! app._meta_path fid = None) as Hmeta.
  { subst w'. destruct (base.delete _ _ !! _) eqn:E; cbn [fs]; [|done].
    apply lookup_delete_eq. }
  split; [done|]. split; [done|]. split; [done|].
  split.
  { intros p Hp1 Hp2. subst w'. destruct (base.delete _ _ !! _); cbn [fs];
      now rewrite ?lookup_delete_ne by done. }
  split; [subst w'; now destruct (base.delete _ _ !! _)|].
  split.
  - unfold serve, app.edit, bind, app.os_path_exists. now rewrite Hpdf.
  - now rewrite download_run, Hpdf.
Qed.

(** X9: [download] refuses without touching anything: where no binary is
    stored it answers "not found" with status 404, whether or not a
    metadata file is there; where the metadata file is there but is no
    JSON, the [JSONDecodeError] leaves the handler before anything is
    sent or removed. *)
Theorem download_refusals rm fid w :
  (fs w !! app._pdf_path fid = None ->
   serve_download (app.download rm fid) w
   = (Answer (Plain "ファイルが見つかりません" 404), w))
  /\ (forall f g,
        fs w !! app._pdf_path fid = Some f ->
        fs w !! app._meta_path fid = Some g ->
        (forall m, g <> JsonFile m) ->
        serve_download (app.download rm fid) w
        = (Answer (InternalServerError JSONDecodeError), w)).
Proof.
  split.
  - intros Hf. now rewrite download_run, Hf.
  - intros f g Hf Hg Hjson. rewrite download_run, Hf.
    unfold loaded_meta. rewrite Hg.
    destruct g as [d|m|]; [done| |done]. now destruct (Hjson m).
Qed.

(** X10: a removal that fails in the cleanup is swallowed: the answer is
    the file all the same.  When the binary cannot be removed nothing is
    removed, the metadata neither; when only the metadata cannot be
    removed, the binary is gone and the metadata stays. *)
Theorem download_cleanup_failures_are_swallowed rm fid w f m :
  fs w !! app._pdf_path fid = Some f ->
  loaded_meta fid 0 (fs w) = Ok m ->
  let w' := snd (serve_download (app.download rm fid) w) in
  fst (serve_download (app.download rm fid) w)
  = SendFile f (filename m +:+ "_edited.pdf")
  /\ (rm (app._pdf_path fid) = false -> w' = w)
  /\ (rm (app._pdf_path fid) = true -> rm (app._meta_path fid) = false ->
      binary fid w' = None /\ metadata fid w' = metadata fid w).
Proof.
  intros Hf Hm. cbv zeta. rewrite download_run, Hf, Hm. cbn [fst snd].
  rewrite cleanup_run. cbn [snd]. rewrite Hf. cbv zeta.
  split; [done|]. split.
  - now intros ->.
  - intros -> ->. unfold binary, metadata.
    destruct (base.delete _ _ !! _); cbn [fs];
      (split; [apply lookup_delete_eq|apply lookup_delete_ne, pdf_ne_meta]).
Qed.

(** ** How operations compose *)

Lemma delete_step fid i w d m :
  session fid w = Some (d, m) ->
  length (pages m) = length (doc_pages d) ->
  0 <= i < page_count d -> 1 < page_count d ->
  after fid (OpDelete i) w
  = rewritten fid (with_pages d (delete (Z.to_nat i) (doc_pages d)))
      {| filename := filename m; pages := delete (Z.to_nat i) (pages m) |} w.
Proof.
  intros Hs Hlen Hi Hn. apply session_inv_parts in Hs as [Hd Hload].
  destruct (page_in_range d i Hi) as [p Hp].
  assert (delete_guard d i = true) as Hg by (apply delete_guard_range; lia).
  rewrite page_count_length in Hi.
  destruct (lookup_lt_is_Some_2 (pages m) (Z.to_nat i)) as [k Hk]; [lia|].
  pose proof (pop_in_range (pages m) i k (proj1 Hi) Hk) as Hpop.
  rewrite <- delete_take_drop in Hpop.
  unfold after, run, serve.
  now rewrite (delete_run fid i w d p m k _ Hd Hg Hp Hload Hpop).
Qed.

Lemma move_world_step fid f t s w d m :
  session fid w = Some (d, m) ->
  length (pages m) = length (doc_pages d) ->
  0 <= f < page_count d -> 0 <= t < page_count d -> f <> t ->
  Py.int_of_str s = Ok t ->
  after fid (OpMove f (Some s)) w
  = rewritten fid
      (with_pages d (lmove (Z.to_nat f) (Z.to_nat t) (doc_pages d)))
      {| filename := filename m;
         pages := lmove (Z.to_nat f) (Z.to_nat t) (pages m) |} w.
Proof.
  intros Hs Hlen Hf Ht Hft Hparse.
  apply session_inv_parts in Hs as [Hd Hm].
  assert (move_guard d f t = true) as Hg by (apply move_guard_iff; lia).
  assert (Py.insert_pop (pages m) f t
          = Ok (lmove (Z.to_nat f) (Z.to_nat t) (pages m))) as Hps
    by (apply insert_pop_in_range; unfold Py.len; rewrite Hlen;
        rewrite page_count_length in *; lia).
  unfold after, run, serve.
  now rewrite (move_run fid f t (Some s) w d m _ Hd Hparse Hg Hm Hps).
Qed.

(** X11: a [delete] or [move] whose preconditions hold, on a session
    whose ledger is as long as the document, leaves no temporary file
    behind, also where one was lying there before. *)
Theorem no_temporary_file_is_left fid op w d m :
  session fid w = Some (d, m) ->
  length (pages m) = length (doc_pages d) ->
  mode_of op = FullRewrite ->
  applies d op = true ->
  fs (after fid op w) !! tmp_path fid = None.
Proof.
  intros Hs Hlen Hmode Happ. destruct op as [i | i | f form]; [done| |].
  - cbn [applies] in Happ. apply delete_guard_range in Happ as [Hi Hn].
    rewrite (delete_step fid i w d m Hs Hlen Hi Hn).
    apply tmp_gone_rewritten.
  - cbn [applies] in Happ. destruct form as [s|].
    + cbn [target] in Happ. destruct (Py.int_of_str s) as [t|] eqn:Hparse;
        [|done].
      apply move_guard_iff in Happ as (Hf & Ht & Hft).
      rewrite (move_world_step fid f t s w d m Hs Hlen Hf Ht Hft Hparse).
      apply tmp_gone_rewritten.
    + cbn [target] in Happ. apply move_guard_iff in Happ. lia.
Qed.

Lemma delete_lmove {A} (f t : nat) (l : list A) :
  (f < length l)%nat -> (t < length l)%nat ->
  delete t (lmove f t l) = delete f l.
Proof.
  intros Hf Ht. destruct (lookup_lt_is_Some_2 l f Hf) as [x Hx].
  unfold lmove. rewrite Hx. cbv zeta.
  rewrite (delete_take_drop (take t _ ++ _)).
  rewrite pop_inserted by (rewrite length_pop_rest by done; lia).
  now rewrite delete_take_drop.
Qed.

(** X12: moving a page and then deleting it where it arrived gives the
    session that deleting it where it was gives: the same document and
    the same ledger. *)
Theorem move_then_delete_is_delete fid f t s w d m :
  session fid w = Some (d, m) ->
  length (pages m) = length (doc_pages d) ->
  0 <= f < page_count d -> 0 <= t < page_count d -> f <> t ->
  Py.int_of_str s = Ok t ->
  session fid (after fid (OpDelete t) (after fid (OpMove f (Some s)) w))
  = session fid (after fid (OpDelete f) w)
  /\ exists d' m',
       session fid (after fid (OpDelete f) w) = Some (d', m')
       /\ doc_pages d' = delete (Z.to_nat f) (doc_pages d)
       /\ pages m' = delete (Z.to_nat f) (pages m).
Proof.
  intros Hs Hlen Hf Ht Hft Hparse.
  assert (1 < page_count d) as Hn by lia.
  rewrite (move_world_step fid f t s w d m Hs Hlen Hf Ht Hft Hparse).
  rewrite (delete_step fid f w d m Hs Hlen Hf Hn).
  set (w1 := rewritten fid _ _ w).
  pose proof (session_rewritten fid
    (with_pages d (lmove (Z.to_nat f) (Z.to_nat t) (doc_pages d)))
    {| filename := filename m;
       pages := lmove (Z.to_nat f) (Z.to_nat t) (pages m) |} w) as Hs1.
  fold w1 in Hs1.
  rewrite page_count_length in Hf, Ht.
  rewrite (delete_step fid t w1 _ _ Hs1).
  - rewrite !session_rewritten.
    cbn [doc_pages pages filename with_pages written full_rewrite encryption].
    rewrite !delete_lmove by lia. split; [done|]. eauto.
  - cbn [doc_pages pages with_pages written full_rewrite encryption].
    now rewrite !lmove_length.
  - unfold page_count, Py.len.
    cbn [doc_pages with_pages written full_rewrite encryption].
    rewrite lmove_length. lia.
  - unfold page_count, Py.len.
    cbn [doc_pages with_pages written full_rewrite encryption].
    rewrite lmove_length. rewrite page_count_length in Hn. lia.
Qed.

Lemma lmove_cons {A} (f t : nat) (c : A) (l : list A) :
  lmove (S f) (S t) (c :: l) = c :: lmove f t l.
Proof. unfold lmove. simpl. now destruct (l !! f). Qed.

(** Moving a page one place down, or its lower neighbour one place up,
    exchanges the two. *)
Lemma lmove_adjacent {A} (i : nat) (l : list A) x y :
  l !! i = Some x -> l !! S i = Some y ->
  lmove i (S i) l = <[i := y]> (<[S i := x]> l)
  /\ lmove (S i) i l = <[i := y]> (<[S i := x]> l).
Proof.
  revert l. induction i as [|i IH]; intros [|a [|b l]] Hx Hy; try done.
  - injection Hx as ->. injection Hy as ->. split; [|done].
    unfold lmove. simpl. now rewrite ?take_0, ?drop_0.
  - destruct (IH (b :: l) Hx Hy) as [H1 H2].
    rewrite !lmove_cons, H1, H2. done.
Qed.

(** X13: on a session whose ledger is as long as the document, moving
    page [i] to [i+1] and moving page [i+1] to [i] leave the same
    session: the two neighbours have changed places, in the document and
    in the ledger alike, and every other position is as it was. *)
Theorem adjacent_moves_swap fid i s s' w d m :
  session fid w = Some (d, m) ->
  length (pages m) = length (doc_pages d) ->
  0 <= i -> i + 1 < page_count d ->
  Py.int_of_str s = Ok (i + 1) ->
  Py.int_of_str s' = Ok i ->
  session fid (after fid (OpMove i (Some s)) w)
  = session fid (after fid (OpMove (i + 1) (Some s')) w)
  /\ exists d' m',
       session fid (after fid (OpMove i (Some s)) w) = Some (d', m')
       /\ pages m' !! Z.to_nat i = pages m !! Z.to_nat (i + 1)
       /\ pages m' !! Z.to_nat (i + 1) = pages m !! Z.to_nat i
       /\ doc_pages d' !! Z.to_nat i = doc_pages d !! Z.to_nat (i + 1)
       /\ doc_pages d' !! Z.to_nat (i + 1) = doc_pages d !! Z.to_nat i
       /\ (forall j, j <> Z.to_nat i -> j <> Z.to_nat (i + 1) ->
             pages m' !! j = pages m !! j
             /\ doc_pages d' !! j = doc_pages d !! j).
Proof.
  intros Hs Hlen Hi Hn Hparse Hparse'.
  rewrite (move_world_step fid i (i + 1) s w d m Hs Hlen) by (lia || done).
  rewrite (move_world_step fid (i + 1) i s' w d m Hs Hlen) by (lia || done).
  rewrite !session_rewritten.
  rewrite page_count_length in Hn.
  replace (Z.to_nat (i + 1)) with (S (Z.to_nat i)) by lia.
  set (n := Z.to_nat i).
  destruct (lookup_lt_is_Some_2 (doc_pages d) n) as [p Hp]; [lia|].
  destruct (lookup_lt_is_Some_2 (doc_pages d) (S n)) as [q Hq]; [lia|].
  destruct (lookup_lt_is_Some_2 (pages m) n) as [k Hk]; [lia|].
  destruct (lookup_lt_is_Some_2 (pages m) (S n)) as [k' Hk']; [lia|].
  destruct (lmove_adjacent n (doc_pages d) p q Hp Hq) as [-> ->].
  destruct (lmove_adjacent n (pages m) k k' Hk Hk') as [-> ->].
  split; [done|]. eexists _, _. split; [done|].
  cbn [doc_pages pages with_pages written full_rewrite encryption].
  rewrite Hp, Hq, Hk, Hk'.
  repeat split.
  - apply list_lookup_insert_eq. rewrite length_insert. lia.
  - rewrite list_lookup_insert_ne by lia. apply list_lookup_insert_eq. lia.
  - apply list_lookup_insert_eq. rewrite length_insert. lia.
  - rewrite list_lookup_insert_ne by lia. apply list_lookup_insert_eq. lia.
  - now rewrite !list_lookup_insert_ne by done.
  - now rewrite !list_lookup_insert_ne by done.
Qed.

(** ** Upload *)

Lemma lower_app (a b : string) : Py.lower (a +:+ b) = Py.lower a +:+ Py.lower b.
Proof. induction a as [|c a IH]; [done|]. simpl. now rewrite IH. Qed.

Lemma lower_length (s : string) : String.length (Py.lower s) = String.length s.
Proof. induction s as [|c s IH]; [done|]. simpl. now rewrite IH. Qed.

Lemma substring_all (b : string) : substring 0 (String.length b) b = b.
Proof. induction b as [|c b IH]; [done|]. simpl. now rewrite IH. Qed.

Lemma substring_app_suffix (a b : string) :
  substring (String.length a) (String.length b) (a +:+ b) = b.
Proof. induction a as [|c a IH]; [apply substring_all|]. simpl. exact IH. Qed.

Lemma endswith_app (a b : string) : Py.endswith (a +:+ b) b = true.
Proof.
  unfold Py.endswith. rewrite string_length_app.
  replace (String.length a + String.length b - String.length b)%nat
    with (String.length a) by lia.
  rewrite substring_app_suffix, String.eqb_refl, andb_true_r.
  apply Nat.leb_le. lia.
Qed.

Lemma lower_substring (n m : nat) (s : string) :
  Py.lower (substring n m s) = substring n m (Py.lower s).
Proof.
  revert n m. induction s as [|c s IH]; intros [|n] [|m]; simpl;
    rewrite ?IH; done.
Qed.

Lemma substring_split (k : nat) (s : string) :
  (k <= String.length s)%nat ->
  s = substring 0 k s +:+ substring k (String.length s - k) s.
Proof.
  revert k. induction s as [|c s IH]; intros [|k] Hk; simpl in *;
    try lia; try done.
  - now rewrite substring_all.
  - change (String c s
            = String c (substring 0 k s
                        +:+ substring k (String.length s - k) s)).
    f_equal. apply IH. lia.
Qed.

Lemma lower_ascii_dot (c : ascii) : Py.lower_ascii c = "."%char -> c = "."%char.
Proof.
  destruct c as [[] [] [] [] [] [] [] []]; vm_compute; intros H;
    first [reflexivity | discriminate H].
Qed.

Lemma before_last_dot_app (stem ext : string) :
  Py.before_last_dot ext = Some EmptyString ->
  Py.before_last_dot (stem +:+ ext) = Some stem.
Proof.
  intros Hext. induction stem as [|c stem IH]; [exact Hext|].
  simpl. now rewrite IH.
Qed.

Lemma not_dot_by_lower (c c' : ascii) :
  Py.lower_ascii c = c' -> c' <> "."%char -> Ascii.eqb c "." = false.
Proof.
  intros H Hc'. destruct (Ascii.eqb_spec c "."%char) as [->|]; [|done].
  vm_compute in H. congruence.
Qed.

(** An extension that is [".pdf"] in some letter case starts with the
    only ["."] it has. *)
Lemma extension_dot (ext : string) :
  Py.lower ext = ".pdf"%string -> Py.before_last_dot ext = Some EmptyString.
Proof.
  intros H.
  destruct ext as [|c0 [|c1 [|c2 [|c3 [|]]]]]; try discriminate H.
  simpl in H. injection H as H0 H1 H2 H3.
  apply lower_ascii_dot in H0 as ->.
  simpl.
  rewrite (not_dot_by_lower c3 _ H3), (not_dot_by_lower c2 _ H2),
    (not_dot_by_lower c1 _ H1) by discriminate.
  done.
Qed.

(** The names [upload] accepts are the names with an extension that is
    [".pdf"] in some letter case. *)
Lemma accepted_name_iff (name : string) :
  accepted_name name = true <->
  exists stem ext, name = stem +:+ ext /\ Py.lower ext = ".pdf"%string.
Proof.
  unfold accepted_name. split.
  - rewrite andb_true_iff. intros [_ Hend]. unfold Py.endswith in Hend.
    apply andb_true_iff in Hend as [Hlen Heq].
    apply Nat.leb_le in Hlen. apply String.eqb_eq in Heq.
    rewrite lower_length in *. cbn [String.length] in *.
    exists (substring 0 (String.length name - 4) name),
      (substring (String.length name - 4) 4 name).
    split; [|now rewrite lower_substring].
    rewrite (substring_split (String.length name - 4) name) at 1 by lia.
    do 2 f_equal. lia.
  - intros (stem & ext & -> & Hext).
    rewrite lower_app, Hext, endswith_app, andb_true_r.
    apply negb_true_iff, String.eqb_neq. intros H.
    apply (f_equal String.length) in H. rewrite string_length_app in H.
    apply (f_equal String.length) in Hext. rewrite lower_length in Hext.
    cbn [String.length] in *. lia.
Qed.

(** X14: [upload] accepts every file whose name ends in [".pdf"] in some
    letter case; for bytes PyMuPDF opens it stores them as the binary of
    the session and, as metadata, the name without that extension and the
    ledger [1..n] for the [n] pages; [edit] then lists the pages under the
    name with [".pdf"] added. *)
Theorem upload_keeps_name_without_extension fid stem ext d w :
  Py.lower ext = ".pdf"%string ->
  let f := app.UploadFile (stem +:+ ext) (PdfFile d) in
  let w' := snd (serve (app.upload io_ok fid (Some f)) w) in
  let m := {| filename := stem; pages := Py.range 1 (page_count d + 1) |} in
  fst (serve (app.upload io_ok fid (Some f)) w) = Redirect (app.url_for_edit fid)
  /\ stored fid w' d m
  /\ serve (app.edit fid) w'
     = (Rendered fid (stem +:+ ".pdf") (page_count d) (rows d (pages m)), w').
Proof.
  intros Hext. cbv zeta.
  assert (accepted_name (stem +:+ ext) = true) as Hname
    by (apply accepted_name_iff; eauto).
  pose proof (upload_run fid _ d w Hname) as Hrun.
  unfold Py.rsplit_dot_head in Hrun.
  rewrite (before_last_dot_app stem ext (extension_dot ext Hext)) in Hrun.
  cbn [default] in Hrun.
  set (m := {| filename := stem; pages := _ |}) in *.
  set (w' := {| fs := _; log := _ |}) in Hrun.
  assert (serve (app.upload io_ok fid (Some (app.UploadFile (stem +:+ ext)
                                               (PdfFile d)))) w
          = (Redirect (app.url_for_edit fid), w')) as ->
    by (unfold serve; now rewrite Hrun).
  cbn [fst snd].
  assert (stored fid w' d m) as Hst.
  { split; subst w'; cbn [fs]; [|apply lookup_insert_eq].
    rewrite lookup_insert_ne by (apply not_eq_sym, pdf_ne_meta).
    apply lookup_insert_eq. }
  split; [done|]. split; [done|].
  assert (length (doc_pages d) <= length (pages m))%nat as Hle
    by (subst m; cbn [pages]; rewrite range_length, page_count_length; lia).
  unfold serve.
  rewrite (edit_on_session fid w' d m (stored_session fid w' d m Hst)).
  rewrite (get_page_info_rows_le d (pages m) Hle). cbn [rbind].
  now rewrite rows_length.
Qed.

(** X15: [upload] refuses a request without a file, and a file whose name
    does not end in [".pdf"] in some letter case, with status 400, and
    stores nothing, whatever the bytes are. *)
Theorem upload_refuses_other_names io fid w :
  serve (app.upload io fid None) w
  = (Plain "PDFファイルを選択してください" 400, w)
  /\ (forall name content,
        ~ (exists stem ext,
             name = stem +:+ ext /\ Py.lower ext = ".pdf"%string) ->
        serve (app.upload io fid (Some (app.UploadFile name content))) w
        = (Plain "PDFファイルを選択してください" 400, w)).
Proof.
  split; [done|]. intros name content Hno.
  assert (accepted_name name = false) as Hname.
  { destruct (accepted_name name) eqn:E; [|done].
    now apply accepted_name_iff in E. }
  unfold accepted_name in Hname.
  unfold serve, app.upload. cbn [app.up_filename]. now rewrite Hname.
Qed.

(** X16: [upload] stores the bytes before it looks at them: for an
    accepted name and bytes PyMuPDF cannot open, the bytes are stored as
    the binary, the [FileDataError] of [fitz.open] leaves the handler
    (status 500) and no metadata is written; afterwards [edit] and the
    edit operations fail with the same error instead of "not found". *)
Theorem upload_of_other_bytes_stays fid name content w :
  accepted_name name = true ->
  (forall d, content <> PdfFile d) ->
  let w' := snd (serve (app.upload io_ok fid
                          (Some (app.UploadFile name content))) w) in
  fst (serve (app.upload io_ok fid (Some (app.UploadFile name content))) w)
  = InternalServerError FileDataError
  /\ binary fid w' = Some content
  /\ metadata fid w' = metadata fid w
  /\ serve (app.edit fid) w' = (InternalServerError FileDataError, w')
  /\ (forall op, readable op ->
        serve (run io_ok fid op) w' = (InternalServerError FileDataError, w')).
Proof.
  intros Hname Hnot. cbv zeta. unfold accepted_name in Hname.
  assert (app.upload io_ok fid (Some (app.UploadFile name content)) w
          = (Raise FileDataError,
             {| fs := <[app._pdf_path fid := content]> (fs w);
                log := log w ++ [EvUpload (app._pdf_path fid)] |})) as Hrun.
  { unfold app.upload. cbn [app.up_filename app.up_content]. rewrite Hname.
    unfold bind at 1. unfold app.write_file, io_ok.
    unfold bind at 1. unfold app.fitz_open. cbn [fs log].
    rewrite lookup_insert_eq.
    destruct content as [d| |]; [now destruct (Hnot d)|done|done]. }
  set (w' := {| fs := _; log := _ |}) in Hrun.
  assert (serve (app.upload io_ok fid (Some (app.UploadFile name content))) w
          = (InternalServerError FileDataError, w')) as ->
    by (unfold serve; now rewrite Hrun).
  cbn [fst snd].
  assert (fs w' !! app._pdf_path fid = Some content) as Hbin
    by (subst w'; cbn [fs]; apply lookup_insert_eq).
  assert (forall A (k : document -> M A),
            bind (app.fitz_open (app._pdf_path fid)) k w'
            = (Raise FileDataError, w')) as Hopen.
  { intros A k. unfold bind, app.fitz_open. rewrite Hbin.
    destruct content as [d| |]; [now destruct (Hnot d)|done|done]. }
  split; [done|]. split; [done|].
  split; [subst w'; unfold metadata; cbn [fs];
          now rewrite lookup_insert_ne by apply pdf_ne_meta|].
  split.
  { unfold serve, app.edit. unfold bind at 1. unfold app.os_path_exists.
    rewrite Hbin. cbn [negb]. now rewrite Hopen. }
  intros [i | i | f form] Hop; unfold serve; cbn [run].
  - unfold app.rotate. now rewrite Hopen.
  - unfold app.delete. now rewrite Hopen.
  - destruct Hop as [t Ht]. unfold target in Ht.
    unfold app.move. unfold bind at 1. unfold lift at 1. rewrite Ht.
    now rewrite Hopen.
Qed.

(** ** A ledger shorter than the document *)

Lemma rewrite_run_raise fid n d' (tail : meta -> M unit) m e w :
  loaded_meta fid n (fs w) = Ok m ->
  (forall w', tail m w' = (Raise e, w')) ->
  bind (app.doc_save io_ok d' (tmp_path fid) full_rewrite) (fun _ =>
  bind (app.os_replace io_ok (tmp_path fid) (app._pdf_path fid)) (fun _ =>
  bind (app._load_meta fid n) tail)) w
  = (Raise e,
     {| fs := <[app._pdf_path fid := PdfFile (written full_rewrite d')]>
                (delete (tmp_path fid) (fs w));
        log := log w ++ [EvSave (tmp_path fid) full_rewrite;
                         EvReplace (tmp_path fid) (app._pdf_path fid)] |}).
Proof.
  intros Hm Hk.
  unfold bind at 1. unfold app.doc_save, app.write_file, io_ok.
  unfold bind at 1. unfold app.os_replace. cbn [fs log].
  rewrite lookup_insert_eq.
  unfold bind at 1. rewrite load_meta_run. cbn [fs log].
  rewrite loaded_meta_after_replace, Hm, Hk.
  rewrite delete_insert_eq. rewrite <- !app_assoc. done.
Qed.

(** X18: [delete] replaces the binary before it touches the ledger: on a
    session whose stored ledger has no entry at a page index that is
    valid for the document, the page is removed from the stored binary,
    then the [IndexError] of the ledger's [pop] leaves the handler
    (status 500), and the metadata stays as it was. *)
Theorem delete_with_short_ledger fid i w d m :
  stored fid w d m ->
  0 <= i < page_count d ->
  1 < page_count d ->
  (length (pages m) <= Z.to_nat i)%nat ->
  let w' := snd (serve (app.delete io_ok fid i) w) in
  fst (serve (app.delete io_ok fid i) w) = InternalServerError IndexError
  /\ binary fid w'
     = Some (PdfFile (written full_rewrite
                        (with_pages d (delete (Z.to_nat i) (doc_pages d)))))
  /\ metadata fid w' = Some (JsonFile m).
Proof.
  intros [Hd Hm] Hi Hn Hshort. cbv zeta.
  assert (loaded_meta fid (page_count d) (fs w) = Ok m) as Hload
    by (unfold loaded_meta; now rewrite Hm).
  destruct (page_in_range d i Hi) as [p Hp].
  assert (delete_guard d i = true) as Hg by (apply delete_guard_range; lia).
  assert (Py.pop (pages m) i = Raise IndexError) as Hpop
    by (apply pop_out_of_range; unfold Py.len; lia).
  assert (app.delete io_ok fid i w
          = (Raise IndexError,
             {| fs := <[app._pdf_path fid :=
                          PdfFile (written full_rewrite
                            (with_pages d (delete (Z.to_nat i) (doc_pages d))))]>
                        (delete (tmp_path fid) (fs w));
                log := log w ++ [EvSave (tmp_path fid) full_rewrite;
                                 EvReplace (tmp_path fid) (app._pdf_path fid)] |}))
    as Hrun.
  { unfold delete_guard in Hg.
    unfold app.delete. unfold bind at 1. unfold app.fitz_open. rewrite Hd.
    unfold bind at 1. rewrite Hg.
    unfold bind at 1. unfold lift at 1, delete_page, wrap.
    destruct (Z.ltb_spec i 0); [lia|].
    rewrite (pop_in_range _ _ _ (proj1 Hi) Hp), <- delete_take_drop.
    fold (tmp_path fid). fold full_rewrite.
    erewrite rewrite_run_raise; [done|exact Hload|].
    intros w'. unfold bind, lift. now rewrite Hpop. }
  unfold serve. rewrite Hrun. cbn [fst snd]. unfold binary, metadata. cbn [fs].
  split; [done|]. split; [apply lookup_insert_eq|].
  rewrite lookup_insert_ne by apply pdf_ne_meta.
  now rewrite lookup_delete_ne by apply tmp_ne_meta.
Qed.

(** ** The properties above on the demo session *)

Lemma edit_lists_every_page_witness :
  serve (app.edit "abc") demo_world
  = (Rendered "abc" "x.pdf" 3 (rows demo_doc [1; 2; 3]), demo_world)
  /\ Py.len (rows demo_doc [1; 2; 3]) = 3.
Proof.
  destruct (edit_lists_every_page "abc" demo_world demo_doc demo_meta)
    as (H1 & H2 & _).
  - vm_compute. reflexivity.
  - vm_compute. lia.
  - split; [exact H1|exact H2].
Defined.

Lemma edit_short_ledger_fails_witness :
  serve (app.edit "abc") short_ledger_world
  = (InternalServerError IndexError, short_ledger_world).
Proof.
  apply (edit_short_ledger_fails "abc" short_ledger_world demo_doc
           {| filename := "x"; pages := [1; 2] |}).
  - vm_compute. reflexivity.
  - vm_compute. lia.
Defined.

Lemma page_count_stays_within_bounds_witness :
  exists d m,
    stored "abc" edited_world d m
    /\ page_count d <= page_count demo_doc
    /\ (1 <= page_count demo_doc -> 1 <= page_count d).
Proof.
  apply (page_count_stays_within_bounds "abc" demo_doc edited_world).
  unfold edited_world. do 3 apply reach_step.
  apply (reach_upload "abc" demo_doc empty_dir "x.pdf").
  vm_compute. reflexivity.
Defined.

Lemma other_sessions_untouched_witness :
  binary "xyz" (snd (serve (run io_ok "abc" (OpDelete 1)) demo_world))
  = binary "xyz" demo_world
  /\ metadata "xyz" (snd (serve (run io_ok "abc" (OpDelete 1)) demo_world))
     = metadata "xyz" demo_world.
Proof.
  destruct (other_sessions_untouched io_ok rm_ok "abc" "xyz" demo_world)
    as [H _].
  - discriminate.
  - exact (H (OpDelete 1)).
Defined.

Lemma download_sends_then_destroys_witness :
  let w' := snd (serve_download (app.download rm_ok "abc") demo_world) in
  fst (serve_download (app.download rm_ok "abc") demo_world)
  = SendFile (PdfFile demo_doc) (filename demo_meta +:+ "_edited.pdf")
  /\ binary "abc" w' = None
  /\ metadata "abc" w' = None
  /\ (forall p, p <> app._pdf_path "abc" -> p <> app._meta_path "abc" ->
        fs w' !! p = fs demo_world !! p)
  /\ log w' = log demo_world
  /\ serve (app.edit "abc") w' = (Plain "ファイルが見つかりません" 404, w')
  /\ serve_download (app.download rm_ok "abc") w'
     = (Answer (Plain "ファイルが見つかりません" 404), w').
Proof.
  apply (download_sends_then_destroys "abc" demo_world (PdfFile demo_doc)
           demo_meta).
  - vm_compute. reflexivity.
  - vm_compute. reflexivity.
Defined.

(** The download of a session without metadata. *)
Example download_without_metadata :
  fst (serve_download (app.download rm_ok "abc") bare_world)
  = SendFile (PdfFile demo_doc) "unknown.pdf_edited.pdf"
  /\ fs (snd (serve_download (app.download rm_ok "abc") bare_world)) = ∅.
Proof. split; vm_compute; reflexivity. Qed.

Lemma download_cleanup_failures_are_swallowed_witness :
  let w' := snd (serve_download (app.download binary_stays "abc") demo_world) in
  fst (serve_download (app.download binary_stays "abc") demo_world)
  = SendFile (PdfFile demo_doc) (filename demo_meta +:+ "_edited.pdf")
  /\ (binary_stays (app._pdf_path "abc") = false -> w' = demo_world)
  /\ (binary_stays (app._pdf_path "abc") = true ->
      binary_stays (app._meta_path "abc") = false ->
      binary "abc" w' = None /\ metadata "abc" w' = metadata "abc" demo_world).
Proof.
  apply (download_cleanup_failures_are_swallowed binary_stays "abc" demo_world
           (PdfFile demo_doc) demo_meta).
  - vm_compute. reflexivity.
  - vm_compute. reflexivity.
Defined.

Lemma no_temporary_file_is_left_witness :
  fs (after "abc" (OpDelete 1) demo_world) !! tmp_path "abc" = None.
Proof.
  apply (no_temporary_file_is_left "abc" (OpDelete 1) demo_world demo_doc
           demo_meta).
  - vm_compute. reflexivity.
  - reflexivity.
  - reflexivity.
  - vm_compute. reflexivity.
Defined.

Lemma move_then_delete_is_delete_witness :
  session "abc" (after "abc" (OpDelete 2)
                   (after "abc" (OpMove 0 (Some "2"%string)) demo_world))
  = session "abc" (after "abc" (OpDelete 0) demo_world)
  /\ exists d' m',
       session "abc" (after "abc" (OpDelete 0) demo_world) = Some (d', m')
       /\ doc_pages d' = delete (Z.to_nat 0) (doc_pages demo_doc)
       /\ pages m' = delete (Z.to_nat 0) (pages demo_meta).
Proof.
  apply (move_then_delete_is_delete "abc" 0 2 "2" demo_world demo_doc demo_meta).
  - vm_compute. reflexivity.
  - reflexivity.
  - split; [discriminate|reflexivity].
  - split; [discriminate|reflexivity].
  - discriminate.
  - vm_compute. reflexivity.
Defined.

Lemma adjacent_moves_swap_witness :
  session "abc" (after "abc" (OpMove 0 (Some "1"%string)) demo_world)
  = session "abc" (after "abc" (OpMove (0 + 1) (Some "0"%string)) demo_world).
Proof.
  destruct (adjacent_moves_swap "abc" 0 "1" "0" demo_world demo_doc demo_meta)
    as [H _].
  - vm_compute. reflexivity.
  - reflexivity.
  - discriminate.
  - reflexivity.
  - vm_compute. reflexivity.
  - vm_compute. reflexivity.
  - exact H.
Defined.

Lemma upload_keeps_name_without_extension_witness :
  let f := app.UploadFile ("report.v2" +:+ ".PDF") (PdfFile demo_doc) in
  let w' := snd (serve (app.upload io_ok "abc" (Some f)) empty_dir) in
  let m := {| filename := "report.v2";
              pages := Py.range 1 (page_count demo_doc + 1) |} in
  fst (serve (app.upload io_ok "abc" (Some f)) empty_dir)
  = Redirect (app.url_for_edit "abc")
  /\ stored "abc" w' demo_doc m
  /\ serve (app.edit "abc") w'
     = (Rendered "abc" ("report.v2" +:+ ".pdf") (page_count demo_doc)
          (rows demo_doc (pages m)), w').
Proof.
  apply (upload_keeps_name_without_extension "abc" "report.v2" ".PDF" demo_doc
           empty_dir).
  vm_compute. reflexivity.
Defined.

Lemma upload_of_other_bytes_stays_witness :
  let w' := snd (serve (app.upload io_ok "abc"
                          (Some (app.UploadFile "x.pdf" RawFile))) empty_dir) in
  fst (serve (app.upload io_ok "abc" (Some (app.UploadFile "x.pdf" RawFile)))
         empty_dir)
  = InternalServerError FileDataError
  /\ binary "abc" w' = Some RawFile
  /\ metadata "abc" w' = metadata "abc" empty_dir
  /\ serve (app.edit "abc") w' = (InternalServerError FileDataError, w')
  /\ (forall op, readable op ->
        serve (run io_ok "abc" op) w' = (InternalServerError FileDataError, w')).
Proof.
  apply (upload_of_other_bytes_stays "abc" "x.pdf" RawFile empty_dir).
  - vm_compute. reflexivity.
  - discriminate.
Defined.

Lemma delete_with_short_ledger_witness :
  let w' := snd (serve (app.delete io_ok "abc" 2) short_ledger_world) in
  fst (serve (app.delete io_ok "abc" 2) short_ledger_world)
  = InternalServerError IndexError
  /\ binary "abc" w'
     = Some (PdfFile (written full_rewrite
                        (with_pages demo_doc
                           (delete (Z.to_nat 2) (doc_pages demo_doc)))))
  /\ metadata "abc" w'
     = Some (JsonFile {| filename := "x"; pages := [1; 2] |}).
Proof.
  apply (delete_with_short_ledger "abc" 2 short_ledger_world demo_doc
           {| filename := "x"; pages := [1; 2] |}).
  - split; vm_compute; reflexivity.
  - split; [discriminate|reflexivity].
  - reflexivity.
  - vm_compute. lia.
Defined.
